(** * KEPH task tracker: report, completion and grouping logic

    A shallow embedding of the three components of the repository

    - [daily-summary-dialog.tsx]  (module [DailySummary]): the end-of-day
      report, its partition into accomplished and outstanding tasks, its
      statistics, its HTML and plain-text renderings and the PDF file name;
    - [task-item.tsx]             (module [TaskItem]): the check-box
      handlers that cascade between a task and its subtasks;
    - [task-list.tsx]             (module [TaskList]): tab filtering, tab
      counts, date grouping and the two orderings.

    JavaScript strings are sequences of UTF-16 code units, numbers that
    are not counts are IEEE 754 doubles, timestamps are the millisecond
    counts of [Date.prototype.getTime], and the partial
    update objects handed to the store keep the difference between a key
    that is absent and a key that is present with the value [undefined]. *)

From Stdlib Require Import List ZArith NArith QArith Bool Lia Permutation Sorted.
From Stdlib Require String Ascii DecimalString SpecFloat.
Import ListNotations String.StringSyntax.

Delimit Scope string_scope with string.
Close Scope Q_scope.
Set Implicit Arguments.

(* ================================================================== *)
(** ** JavaScript values used by the components *)
(* ================================================================== *)

Module JS.

(** A string is its list of UTF-16 code units. *)
Definition jsstring := list N.

(** The code units of an ASCII literal. *)
Definition js (s : String.string) : jsstring :=
  map Ascii.N_of_ascii (String.list_ascii_of_string s).
Arguments js s%_string.

(** [a === b] on strings. *)
Fixpoint str_eqb (a b : jsstring) : bool :=
  match a, b with
  | [], [] => true
  | x :: a', y :: b' => N.eqb x y && str_eqb a' b'
  | _, _ => false
  end.

(** Truthiness of an optional string: [undefined] and the empty string are
    falsy. *)
Definition truthy (o : option jsstring) : bool :=
  match o with
  | Some (_ :: _) => true
  | _ => false
  end.

(** [x && x.length > 0] for an optional array. *)
Definition nonEmpty {A} (o : option (list A)) : bool :=
  match o with
  | Some (_ :: _) => true
  | _ => false
  end.

(** The elements of an optional array, none when it is [undefined]. *)
Definition items {A} (o : option (list A)) : list A :=
  match o with
  | Some l => l
  | None => []
  end.


(** A non-negative integer interpolated into a template literal. *)
Definition ofNat (n : nat) : jsstring :=
  js (DecimalString.NilEmpty.string_of_uint (Nat.to_uint n)).

(** [Array.prototype.sort] with a comparator.  ECMAScript makes the sort
    stable and, when the comparator is consistent on the elements sorted,
    fixes the result: the elements in comparator order, ties in their
    original order.  A stable insertion sort computes exactly that list. *)
Section Sort.
Variable A : Type.
Variable cmp : A -> A -> Z.

Fixpoint insert (x : A) (l : list A) : list A :=
  match l with
  | [] => [x]
  | y :: l' => if (cmp x y <=? 0)%Z then x :: y :: l' else y :: insert x l'
  end.

Definition sort (l : list A) : list A := fold_right insert [] l.
End Sort.

End JS.

Import JS.

(** JavaScript numbers: IEEE 754 binary64 with rounding to the nearest,
    ties to even, as [SpecFloat] specifies it. *)
Module Double.

Definition double : Type := SpecFloat.spec_float.
Definition prec : Z := 53.
Definition emax : Z := 1024.

(** The double nearest to an integer; integers below 2^53 in absolute
    value are doubles themselves. *)
Definition ofZ (z : Z) : double :=
  SpecFloat.binary_normalize prec emax z 0 false.

Definition ofNat (n : nat) : double := ofZ (Z.of_nat n).

Definition div : double -> double -> double := SpecFloat.SFdiv prec emax.
Definition mul : double -> double -> double := SpecFloat.SFmul prec emax.
Definition sub : double -> double -> double := SpecFloat.SFsub prec emax.

(** [x > y]; false when either is NaN. *)
Definition gtb (x y : double) : bool := SpecFloat.SFltb y x.

Definition zero : double := SpecFloat.S754_zero false.
Definition one : double := ofZ 1.
Definition hundred : double := ofZ 100.

(** The double [x] is the rational [q]. *)
Definition exactly (x : double) (q : Q) : Prop :=
  match x with
  | SpecFloat.S754_zero _ => (q == 0)%Q
  | SpecFloat.S754_finite s m e =>
      (inject_Z (if s then Z.neg m else Z.pos m) * Qpower 2 e == q)%Q
  | _ => False
  end.

End Double.

(* ================================================================== *)
(** ** Data model ([@/types]) *)
(* ================================================================== *)

(** Modelled from the spec: the declarations of [@/types] are not part of
    the sources; the fields and their optionality are the ones the
    components read ([task.subtasks?.map], [task.urls && ...],
    [a.completedAt?.getTime()], [if (task.notes)]). *)
Inductive TaskStatus := Current | Completed | Pending.

Record Subtask := mkSubtask {
  subtask_id : jsstring;
  subtask_title : jsstring;
  completed : bool
}.

Record Url := mkUrl {
  url_id : jsstring;
  value : jsstring
}.

Record Task := mkTask {
  task_id : jsstring;
  title : jsstring;
  status : TaskStatus;
  createdAt : Z;
  completedAt : option Z;
  dueDate : option Z;
  notes : option jsstring;
  urls : option (list Url);
  subtasks : option (list Subtask)
}.

Definition status_eqb (a b : TaskStatus) : bool :=
  match a, b with
  | Current, Current | Completed, Completed | Pending, Pending => true
  | _, _ => false
  end.

(* ================================================================== *)
(** ** daily-summary-dialog.tsx: partition and statistics *)
(* ================================================================== *)

Module DailySummary.

(** The callback of [completedTasksList]. *)
Definition isAccomplished (t : Task) : bool :=
  if nonEmpty (subtasks t)
  then forallb completed (items (subtasks t))
  else status_eqb (status t) Completed.

Definition completedTasksList (tasks : list Task) : list Task :=
  filter isAccomplished tasks.

Definition incompleteTasksList (tasks : list Task) : list Task :=
  filter
    (fun t => negb (existsb (fun ct => str_eqb (task_id ct) (task_id t))
                            (completedTasksList tasks)))
    tasks.

Definition totalTasks (tasks : list Task) : nat := length tasks.

Definition completedTasksCount (tasks : list Task) : nat :=
  length (completedTasksList tasks).

(** The first [forEach]: the pair (totalSubtasks, completedSubtasks). *)
Definition subtaskCounters (tasks : list Task) : nat * nat :=
  fold_left
    (fun acc task =>
       if nonEmpty (subtasks task)
       then (fst acc + length (items (subtasks task)),
             snd acc + length (filter completed (items (subtasks task))))
       else acc)
    tasks (0, 0).

Definition totalSubtasks (tasks : list Task) : nat := fst (subtaskCounters tasks).
Definition completedSubtasks (tasks : list Task) : nat := snd (subtaskCounters tasks).

(** The second [forEach]: the pair
    (itemsForCompletion, completedItemsForCompletion). *)
Definition completionStep (acc : nat * nat) (task : Task) : nat * nat :=
  if nonEmpty (subtasks task)
  then (fst acc + length (items (subtasks task)),
        snd acc + length (filter completed (items (subtasks task))))
  else (fst acc + 1,
        if status_eqb (status task) Completed then snd acc + 1 else snd acc).

Definition completionCounters (tasks : list Task) : nat * nat :=
  fold_left completionStep tasks (0, 0).

Definition itemsForCompletion (tasks : list Task) : nat :=
  fst (completionCounters tasks).
Definition completedItemsForCompletion (tasks : list Task) : nat :=
  snd (completionCounters tasks).

(** [completionRate]: the quotient of the two counters as a double, then
    its product by 100 as a double. *)
Definition completionRate (tasks : list Task) : Double.double :=
  if (0 <? itemsForCompletion tasks)%nat
  then Double.mul
         (Double.div (Double.ofNat (completedItemsForCompletion tasks))
                     (Double.ofNat (itemsForCompletion tasks)))
         Double.hundred
  else Double.zero.

(** [getReportTitle].  [longDate] stands for the date-fns rendering
    [format(new Date(y, m - 1, d), 'MMMM d, yyyy')] of a date key. *)
Section Rendering.
Variable toFixed0 : Double.double -> jsstring. (* [Number.prototype.toFixed(0)] *)
Variable longDate : jsstring -> jsstring.







End Rendering.

(** *** The PDF file name ([handleDownloadPdf]) *)

(** The characters the class [\s] matches without the [u] flag: the white
    space and line terminator code points of ECMAScript. *)
Definition isWhiteSpace (c : N) : bool :=
  ((9 <=? c) && (c <=? 13) || (c =? 32) || (c =? 160) || (c =? 5760)
   || (8192 <=? c) && (c <=? 8202) || (c =? 8232) || (c =? 8233)
   || (c =? 8239) || (c =? 8287) || (c =? 12288) || (c =? 65279))%N.

(** The class [[\s,]]. *)
Definition isSeparator (c : N) : bool := isWhiteSpace c || (c =? 44)%N.

Definition hyphen : N := 45%N.

(** [s.replace(/[\s,]+/g, '-')]: the scan emits one hyphen where a match
    of the greedy class repetition starts and skips the rest of the match;
    [inMatch] tells whether the previous character belonged to one. *)
Fixpoint replaceSeparators (inMatch : bool) (s : jsstring) : jsstring :=
  match s with
  | [] => []
  | c :: rest =>
      if isSeparator c
      then if inMatch then replaceSeparators true rest
           else hyphen :: replaceSeparators true rest
      else c :: replaceSeparators false rest
  end.

(** The name given to [pdf.save]. *)
Definition pdfFileName (dateKey : option jsstring)
    (formattedDate : jsstring) : jsstring :=
  js "KEPH-Report-"
  ++ (if truthy dateKey then items dateKey
      else replaceSeparators false formattedDate)
  ++ js ".pdf".

(** *** The statements of the specification *)

(** The accomplished predicate in the words of the specification. *)
Definition accomplished (t : Task) : Prop :=
  (items (subtasks t) <> [] /\
   Forall (fun st => completed st = true) (items (subtasks t)))
  \/ (items (subtasks t) = [] /\ status t = Completed).

(** The identifiers of a group are identities: two tasks of the group
    under one identifier are the same task. *)
Definition idsIdentify (tasks : list Task) : Prop :=
  forall a b, In a tasks -> In b tasks -> task_id a = task_id b -> a = b.

(** What one task contributes to the denominator and to the numerator of
    the completion rate. *)
Definition unitsOf (t : Task) : nat := Nat.max 1 (length (items (subtasks t))).

Definition completedUnitsOf (t : Task) : nat :=
  match items (subtasks t) with
  | [] => match status t with Completed => 1 | _ => 0 end
  | sts => length (filter completed sts)
  end.

(** Every completion unit of the group is complete: every subtask of a
    task that has subtasks, and the task itself when it has none. *)
Definition allUnitsComplete (tasks : list Task) : Prop :=
  Forall (fun t =>
            match items (subtasks t) with
            | [] => status t = Completed
            | sts => Forall (fun st => completed st = true) sts
            end) tasks.

(** The rate in the words of the specification, 100 times [num] over
    [den], in exact arithmetic; the source computes [completionRate]. *)
Definition percentOf (num den : nat) : Q :=
  (100 * inject_Z (Z.of_nat num) / inject_Z (Z.of_nat den))%Q.

(** What the report shows of one task, and of the whole group: the common
    content of the renderings, free of any markup. *)
Record TaskView := mkTaskView {
  tv_done : bool;                          (* state of the completion glyph *)
  tv_title : jsstring;
  tv_subtasks : list (bool * jsstring);    (* completion mark and title *)
  tv_notes : option jsstring;              (* the notes, when shown *)
  tv_links : list jsstring
}.


Definition taskView (t : Task) : TaskView :=
  {| tv_done := status_eqb (status t) Completed;
     tv_title := title t;
     tv_subtasks := map (fun st => (completed st, subtask_title st))
                        (items (subtasks t));
     tv_notes := if truthy (notes t) then notes t else None;
     tv_links := map value (items (urls t)) |}.

Section Syntax.
Variable toFixed0 : Double.double -> jsstring.






End Syntax.


(** A text in which maximal separator runs alternate with words:
    [w0 r1 w1 ... rn wn]. *)
Definition interleave (w0 : jsstring) (rest : list (jsstring * jsstring)) : jsstring :=
  w0 ++ flat_map (fun rw => fst rw ++ snd rw) rest.

(** The same text with every run replaced by a single hyphen. *)
Definition hyphenated (w0 : jsstring) (rest : list (jsstring * jsstring)) : jsstring :=
  w0 ++ flat_map (fun rw => hyphen :: snd rw) rest.

Definition isWord (w : jsstring) : Prop := Forall (fun c => isSeparator c = false) w.
Definition isRun (r : jsstring) : Prop :=
  r <> [] /\ Forall (fun c => isSeparator c = true) r.

(** The runs of [rest] are maximal: a word between two runs is not empty. *)
Fixpoint runsMaximal (rest : list (jsstring * jsstring)) : Prop :=
  match rest with
  | [] => True
  | (r, w) :: more =>
      isRun r /\ isWord w /\ (more <> [] -> w <> []) /\ runsMaximal more
  end.

End DailySummary.

(* ================================================================== *)
(** ** task-item.tsx: the check-box handlers *)
(* ================================================================== *)

Module TaskItem.

(** [Partial<Omit<Task, 'id' | 'createdAt'>>], restricted to the keys the
    handlers write.  [None] is an absent key; [Some None] is a key that is
    present with the value [undefined]. *)
Record TaskUpdates := mkUpdates {
  u_status : option TaskStatus;
  u_completedAt : option (option Z);
  u_subtasks : option (option (list Subtask))
}.

(** One call [onUpdate(id, updates)]. *)
Record UpdateCall := mkCall {
  target : jsstring;
  updates : TaskUpdates
}.

(** [{ ...st, completed: checked }]. *)
Definition setCompleted (checked : bool) (st : Subtask) : Subtask :=
  {| subtask_id := subtask_id st;
     subtask_title := subtask_title st;
     completed := checked |}.

(** [handleCheck]; [now] is the value of [new Date()]. *)
Definition handleCheck (now : Z) (task : Task) (checked : bool) : UpdateCall :=
  let newStatus := if checked then Completed else Current in
  let updates :=
    {| u_status := Some newStatus;
       u_completedAt := Some (if checked then Some now else None);
       u_subtasks := None |} in
  let updates :=
    if nonEmpty (subtasks task)
    then {| u_status := u_status updates;
            u_completedAt := u_completedAt updates;
            u_subtasks :=
              Some (Some (map (setCompleted checked) (items (subtasks task)))) |}
    else updates in
  {| target := task_id task; updates := updates |}.

(** [handleUpdateStatus]. *)
Definition handleUpdateStatus (now : Z) (task : Task) (s : TaskStatus)
    : UpdateCall :=
  {| target := task_id task;
     updates :=
       {| u_status := Some s;
          u_completedAt :=
            Some (if status_eqb s Completed then Some now else None);
          u_subtasks := None |} |}.

(** [handleSubtaskCheck]. *)
Definition handleSubtaskCheck (now : Z) (task : Task) (subtaskId : jsstring)
    (checked : bool) : UpdateCall :=
  let updatedSubtasks :=
    option_map
      (map (fun subtask =>
              if str_eqb (subtask_id subtask) subtaskId
              then setCompleted checked subtask
              else subtask))
      (subtasks task) in
  let allSubtasksCompleted := option_map (forallb completed) updatedSubtasks in
  let updates :=
    {| u_status := None;
       u_completedAt := None;
       u_subtasks := Some updatedSubtasks |} in
  let updates :=
    if nonEmpty (subtasks task)
    then match allSubtasksCompleted with
         | Some true =>
             {| u_status := Some Completed;
                u_completedAt := Some (Some now);
                u_subtasks := u_subtasks updates |}
         | _ =>
             {| u_status := Some Current;
                u_completedAt := Some None;
                u_subtasks := u_subtasks updates |}
         end
    else updates in
  {| target := task_id task; updates := updates |}.

(** Modelled from the spec: the task store behind [onUpdate] is not part of
    the sources; it accepts partial updates, so every key present in the
    update replaces the field and every absent key leaves it as it was.
    Identity and creation time are never part of an update. *)
Definition applyUpdates (t : Task) (u : TaskUpdates) : Task :=
  {| task_id := task_id t;
     title := title t;
     status := match u_status u with Some s => s | None => status t end;
     createdAt := createdAt t;
     completedAt :=
       match u_completedAt u with Some d => d | None => completedAt t end;
     dueDate := dueDate t;
     notes := notes t;
     urls := urls t;
     subtasks :=
       match u_subtasks u with Some s => s | None => subtasks t end |}.

End TaskItem.

(* ================================================================== *)
(** ** task-list.tsx: tabs, counts, grouping and ordering *)
(* ================================================================== *)

Module TaskList.

(** A date key: the text ['No Date'], or the ['yyyy-MM-dd'] text of a
    calendar day, which is represented by the number of that day (days
    since 1970-01-01).  [new Date(key).getTime()] of a day key is the UTC
    midnight of that day. *)
Inductive DateKey := NoDate | Day (d : Z).

Definition DateKey_eqb (a b : DateKey) : bool :=
  match a, b with
  | NoDate, NoDate => true
  | Day x, Day y => (x =? y)%Z
  | _, _ => false
  end.

Definition msPerDay : Z := 86400000.

Definition keyTime (d : Z) : Z := (d * msPerDay)%Z.

Section Clock.
(** The date-fns collaborators are pure functions of a timestamp and the
    local calendar: [dayOf] gives the local calendar day of a timestamp
    and [now] is the current instant. *)
Variable dayOf : Z -> Z.
Variable now : Z.

(** [isToday(date)]. *)
Definition isToday (date : Z) : bool := (dayOf date =? dayOf now)%Z.

(** [format(date, 'yyyy-MM-dd')]. *)
Definition formatDay (date : Z) : DateKey := Day (dayOf date).

(** The callback of [filteredTasks]. *)
Definition inTab (activeTab : TaskStatus) (task : Task) : bool :=
  match activeTab with
  | Current =>
      status_eqb (status task) Current
      || (status_eqb (status task) Completed
          && match completedAt task with
             | Some d => isToday d
             | None => false
             end)
  | Completed =>
      status_eqb (status task) Completed
      && match completedAt task with
         | Some d => negb (isToday d)
         | None => false
         end
  | Pending => status_eqb (status task) Pending
  end.

Definition filteredTasks (activeTab : TaskStatus) (tasks : list Task)
    : list Task :=
  filter (inTab activeTab) tasks.

(** The comparator of [sortTasks]; [d.getTime() || 0] is the timestamp
    itself, or 0 when there is no date. *)
Definition timeOr0 (d : option Z) : Z :=
  match d with
  | Some t => if (t =? 0)%Z then 0%Z else t
  | None => 0%Z
  end.

Definition compareTasks (activeTab : TaskStatus) (a b : Task) : Z :=
  match activeTab with
  | Completed => (timeOr0 (completedAt b) - timeOr0 (completedAt a))%Z
  | _ =>
      match dueDate a, dueDate b with
      | Some da, Some db => (da - db)%Z
      | Some _, None => (-1)%Z
      | None, Some _ => 1%Z
      | None, None => (createdAt b - createdAt a)%Z
      end
  end.

Definition sortTasks (activeTab : TaskStatus) (tasksToSort : list Task)
    : list Task :=
  JS.sort (compareTasks activeTab) tasksToSort.

(** The key under which [renderTaskList] files a task. *)
Definition dateKeyOf (activeTab : TaskStatus) (task : Task) : DateKey :=
  let dateKeySource :=
    match activeTab with
    | Completed => completedAt task
    | _ => dueDate task
    end in
  match dateKeySource with
  | Some d => formatDay d
  | None => NoDate
  end.

(** The object [acc] of the reduce: its keys in insertion order, each with
    its array.  [addToGroup] is
    [if (!acc[k]) acc[k] = []; acc[k].push(task)]. *)
Fixpoint addToGroup (acc : list (DateKey * list Task)) (k : DateKey)
    (task : Task) : list (DateKey * list Task) :=
  match acc with
  | [] => [(k, [task])]
  | (k', g) :: rest =>
      if DateKey_eqb k' k then (k', g ++ [task]) :: rest
      else (k', g) :: addToGroup rest k task
  end.

Definition groupedTasks (activeTab : TaskStatus) (tasksToRender : list Task)
    : list (DateKey * list Task) :=
  fold_left (fun acc task => addToGroup acc (dateKeyOf activeTab task) task)
            tasksToRender [].

(** [groupedTasks[dateKey]]. *)
Fixpoint groupAt (acc : list (DateKey * list Task)) (k : DateKey)
    : list Task :=
  match acc with
  | [] => []
  | (k', g) :: rest => if DateKey_eqb k' k then g else groupAt rest k
  end.

(** The comparator of [sortedGroupKeys]. *)
Definition compareKeys (a b : DateKey) : Z :=
  match a, b with
  | NoDate, _ => 1%Z
  | _, NoDate => (-1)%Z
  | Day x, Day y => (keyTime y - keyTime x)%Z
  end.

Definition sortedGroupKeys (grouped : list (DateKey * list Task))
    : list DateKey :=
  JS.sort compareKeys (map fst grouped).

(** The sections [renderTaskList] maps over: every sorted key with its
    group. *)
Definition dateGroups (activeTab : TaskStatus) (tasksToRender : list Task)
    : list (DateKey * list Task) :=
  let grouped := groupedTasks activeTab tasksToRender in
  map (fun dateKey => (dateKey, groupAt grouped dateKey))
      (sortedGroupKeys grouped).

(** The same sections with the tasks of each in display order. *)
Definition renderTaskList (activeTab : TaskStatus) (tasksToRender : list Task)
    : list (DateKey * list Task) :=
  map (fun kg => (fst kg, sortTasks activeTab (snd kg)))
      (dateGroups activeTab tasksToRender).

(** [getCount]. *)
Definition getCount (s : TaskStatus) (tasks : list Task) : nat :=
  match s with
  | Current =>
      length
        (filter
           (fun t =>
              status_eqb (status t) Current
              || (status_eqb (status t) Completed
                  && match completedAt t with
                     | Some d => isToday d
                     | None => false
                     end))
           tasks)
  | Completed =>
      length
        (filter
           (fun t =>
              status_eqb (status t) Completed
              && match completedAt t with
                 | Some d => negb (isToday d)
                 | None => false
                 end)
           tasks)
  | _ => length (filter (fun t => status_eqb (status t) s) tasks)
  end.

(** *** The statements of the specification *)

(** Tab membership in the words of the specification. *)
Definition onCurrentDay (t : Task) : Prop :=
  exists d, completedAt t = Some d /\ dayOf d = dayOf now.

Definition onAnotherDay (t : Task) : Prop :=
  exists d, completedAt t = Some d /\ dayOf d <> dayOf now.

Definition tabMember (tab : TaskStatus) (t : Task) : Prop :=
  match tab with
  | Current => status t = Current \/ (status t = Completed /\ onCurrentDay t)
  | Completed => status t = Completed /\ onAnotherDay t
  | Pending => status t = Pending
  end.

(** The order of the tasks of one group. *)
Definition taskBefore (tab : TaskStatus) (a b : Task) : Prop :=
  match tab with
  | Completed =>
      (* completedAt descending, a missing timestamp earliest *)
      match completedAt a, completedAt b with
      | Some ta, Some tb => (tb <= ta)%Z
      | _, None => True
      | None, Some _ => False
      end
  | _ =>
      (* dated tasks first, by due date ascending; the others by
         createdAt descending *)
      match dueDate a, dueDate b with
      | Some da, Some db => (da <= db)%Z
      | Some _, None => True
      | None, Some _ => False
      | None, None => (createdAt b <= createdAt a)%Z
      end
  end.
End Clock.

(** The order the task comparator decides in the completed tab: by the
    timestamp, an absent one counted as 0. *)
Definition byCompletionTime (a b : Task) : Prop :=
  (timeOr0 (completedAt b) <= timeOr0 (completedAt a))%Z.

(** Counting an absent timestamp as 0 makes it the earliest of a group
    when no timestamp of the group is absent, or when every timestamp of
    the group is after the epoch. *)
Definition timestampsComparable (tab : TaskStatus) (g : list Task) : Prop :=
  match tab with
  | Completed =>
      (forall t, In t g -> completedAt t <> None)
      \/ (forall t d, In t g -> completedAt t = Some d -> (0 < d)%Z)
  | _ => True
  end.

(** The order the key comparator decides, ties included. *)
Definition keyNotAfter (a b : DateKey) : Prop :=
  match a, b with
  | Day x, Day y => (y <= x)%Z
  | _, NoDate => True
  | NoDate, Day _ => False
  end.

(** The order of the groups: the sentinel after every day, and a later day
    before an earlier one. *)
Definition keyBefore (a b : DateKey) : Prop :=
  match a, b with
  | Day x, Day y => (y < x)%Z
  | Day _, NoDate => True
  | NoDate, _ => False
  end.

End TaskList.

(* ================================================================== *)
(** ** task-item.tsx: what a task card displays *)
(* ================================================================== *)

Module TaskCard.

(** [task.subtasks?.filter(s => s.completed).length || 0]. *)
Definition completedSubtasks (task : Task) : nat :=
  length (filter completed (items (subtasks task))).

(** [task.subtasks?.length || 0]. *)
Definition totalSubtasks (task : Task) : nat :=
  length (items (subtasks task)).

(** The value of the progress bar: the quotient of the two counts as a
    double, then multiplied by 100. *)
Definition progress (task : Task) : Double.double :=
  if (0 <? totalSubtasks task)%nat
  then Double.mul
         (Double.div (Double.ofNat (completedSubtasks task))
                     (Double.ofNat (totalSubtasks task)))
         Double.hundred
  else Double.zero.

(** date-fns [isPast(date)]: the date is before the current instant. *)
Definition isPast (now date : Z) : bool := (date <? now)%Z.

(** The colour class of the due date line: [None] when the task has no
    due date and the line is not rendered. *)
Definition dueDateClass (dayOf : Z -> Z) (now : Z) (task : Task)
    : option jsstring :=
  match dueDate task with
  | None => None
  | Some d =>
      Some (if negb (status_eqb (status task) Completed)
               && isPast now d
               && negb (TaskList.isToday dayOf now d)
            then js "text-destructive"
            else [])
  end.

(** The invariant of the data model: a completion time is recorded
    exactly for the completed tasks. *)
Definition datedIffCompleted (t : Task) : Prop :=
  completedAt t <> None <-> status t = Completed.

End TaskCard.

(* ================================================================== *)
(** ** task-list.tsx: what opens the report *)
(* ================================================================== *)

Module TaskListSummary.

(** A section shows the [Generate Summary] button when
    [dateKey !== 'No Date']. *)
Definition summaryOffered (dateKey : TaskList.DateKey) : bool :=
  negb (TaskList.DateKey_eqb dateKey TaskList.NoDate).

(** The values [setSummaryData] can receive from a rendered list: the key
    of a section with a button, and the array of that section, which is
    the very array [sortTasks] has sorted in place during the render. *)
Definition summaryData (dayOf : Z -> Z) (activeTab : TaskStatus)
    (tasksToRender : list Task) : list (TaskList.DateKey * list Task) :=
  filter (fun kg => summaryOffered (fst kg))
         (TaskList.renderTaskList dayOf activeTab tasksToRender).

(** The order the task comparator decides: not after. *)
Definition notAfter (activeTab : TaskStatus) (a b : Task) : Prop :=
  (TaskList.compareTasks activeTab a b <= 0)%Z.

(** A completed task that has no completion time. *)
Definition completedUndated (t : Task) : bool :=
  status_eqb (status t) Completed
  && match completedAt t with Some _ => false | None => true end.

End TaskListSummary.

(* ================================================================== *)
(** ** daily-summary-dialog.tsx: slicing the image over the pages *)
(* ================================================================== *)

Module PdfExport.

(** The calls [handleDownloadPdf] makes on the document while it places
    the image: [addImage(imgData, 'PNG', 0, position, pdfWidth,
    pdfHeight)], of which the vertical position is kept, and
    [addPage()].  Lengths are doubles. *)
Inductive PdfCall :=
| AddImage (position : Double.double)
| AddPage.

(** [(imgProps.height * pdfWidth) / imgProps.width]. *)
Definition pdfHeightOf (imgHeight pdfWidth imgWidth : Double.double)
    : Double.double :=
  Double.div (Double.mul imgHeight pdfWidth) imgWidth.

(** The [while (heightLeft > 0)] loop, with the calls in the order they
    are made.  [fuel] bounds the number of iterations; [None] is a loop
    that has not ended within it. *)
Fixpoint sliceLoop (fuel : nat) (pdfHeight pageHeight heightLeft : Double.double)
    : option (list PdfCall) :=
  if Double.gtb heightLeft Double.zero
  then match fuel with
       | O => None
       | S fuel' =>
           let position := Double.sub heightLeft pdfHeight in
           match sliceLoop fuel' pdfHeight pageHeight
                           (Double.sub heightLeft pageHeight) with
           | Some calls => Some (AddPage :: AddImage position :: calls)
           | None => None
           end
       end
  else Some [].

(** The first image at position 0, then the loop on
    [heightLeft = pdfHeight - pageHeight]. *)
Definition placeImage (fuel : nat) (pdfHeight pageHeight : Double.double)
    : option (list PdfCall) :=
  match sliceLoop fuel pdfHeight pageHeight
                  (Double.sub pdfHeight pageHeight) with
  | Some calls => Some (AddImage Double.zero :: calls)
  | None => None
  end.

(** The calls [handleDownloadPdf] makes for a canvas of [imgWidth] by
    [imgHeight] pixels on pages [pdfWidth] wide and [pageHeight] high. *)
Definition handleDownloadPdf (fuel : nat)
    (imgWidth imgHeight pdfWidth pageHeight : Double.double)
    : option (list PdfCall) :=
  placeImage fuel (pdfHeightOf imgHeight pdfWidth imgWidth) pageHeight.

(** *** The statements *)

(** The value of [heightLeft] after [k] executions of
    [heightLeft -= pageHeight]. *)
Definition heightLeftAfter (pageHeight heightLeft : Double.double) (k : nat)
    : Double.double :=
  Nat.iter k (fun h => Double.sub h pageHeight) heightLeft.

(** The calls of the pages [first], [first + 1], ... ([count] of them)
    after the first page: each page is opened by [addPage] and shows the
    image at the height that was left before it, less the height of the
    image. *)
Definition laterPages (pdfHeight pageHeight : Double.double)
    (first count : nat) : list PdfCall :=
  flat_map
    (fun k =>
       [AddPage;
        AddImage (Double.sub (heightLeftAfter pageHeight pdfHeight k)
                             pdfHeight)])
    (seq first count).

Definition isAddPage (c : PdfCall) : bool :=
  match c with AddPage => true | AddImage _ => false end.

Definition isAddImage (c : PdfCall) : bool :=
  match c with AddImage _ => true | AddPage => false end.

End PdfExport.

(* ================================================================== *)
(** ** Sample data *)
(* ================================================================== *)

Module Samples.

Definition plainTask (i : jsstring) (s : TaskStatus) (done : option Z)
    (due : option Z) (sts : option (list Subtask)) : Task :=
  {| task_id := i; title := js "Task " ++ i; status := s; createdAt := 1000;
     completedAt := done; dueDate := due; notes := None; urls := None;
     subtasks := sts |}.

(** The group of the worked example of the specification. *)
Definition taskA : Task := plainTask (js "a") Completed (Some 5000%Z) None None.
Definition taskB : Task :=
  plainTask (js "b") Current None None
    (Some [mkSubtask (js "b1") (js "first") true;
           mkSubtask (js "b2") (js "second") false]).
Definition taskC : Task := plainTask (js "c") Pending None None (Some []).
Definition juneFirst : list Task := [taskA; taskB; taskC].

(** Two tasks under one identifier, the first accomplished, the second
    not. *)
Definition dupDone : Task := plainTask (js "1") Completed (Some 5000%Z) None None.
Definition dupOpen : Task := plainTask (js "1") Current None None None.
Definition sharedIdGroup : list Task := [dupDone; dupOpen].

(** A calendar for the examples: UTC days, and ten o'clock on 2024-06-01
    (day 19875) as the current instant. *)
Definition utcDay (t : Z) : Z := (t / TaskList.msPerDay)%Z.
Definition juneFirstMorning : Z := (19875 * 86400000 + 36000000)%Z.
Definition anHour : Z := 3600000%Z.
Definition aDay : Z := 86400000%Z.

(** The collection of the tab-count example of the specification: two
    current tasks, one completed today, one completed yesterday, one
    pending. *)
Definition cur1 : Task :=
  plainTask (js "c1") Current None (Some (juneFirstMorning + aDay)%Z) None.
Definition cur2 : Task := plainTask (js "c2") Current None None None.
Definition doneToday : Task :=
  plainTask (js "d1") Completed (Some (juneFirstMorning - anHour)%Z)
            (Some juneFirstMorning) None.
Definition doneYesterday : Task :=
  plainTask (js "d2") Completed (Some (juneFirstMorning - aDay)%Z) None None.
Definition pend : Task := plainTask (js "p1") Pending None None None.
Definition fiveTasks : list Task := [cur1; cur2; doneToday; doneYesterday; pend].

(** A completed task without a completion time. *)
Definition doneUndated : Task := plainTask (js "u1") Completed None None None.

(** One task with forty subtasks, of which the first twenty-three are
    checked; the identifier of a subtask is one code unit, from [A] on. *)
Definition fortyUnits : list Task :=
  [plainTask (js "f") Current None None
     (Some (map (fun k => mkSubtask [N.of_nat (65 + k)] (js "step")
                            (k <? 23)%nat)
                (seq 0 40)))].

(** A label as date-fns formats it. *)
Definition juneLabel : jsstring := js "June 1, 2024".

End Samples.

(* ================================================================== *)
(** ** Properties *)
(* ================================================================== *)

Import DailySummary TaskItem TaskList.

Unset Implicit Arguments.

(** *** Strings, optional arrays and lists *)

Lemma str_eqb_eq (a b : jsstring) : str_eqb a b = true <-> a = b.
Proof.
  revert b; induction a as [|x a IH]; intros [|y b]; simpl;
    try (split; (reflexivity || discriminate)).
  rewrite andb_true_iff, N.eqb_eq, IH.
  split; [intros [-> ->]; reflexivity | intros [= -> ->]; auto].
Qed.

Lemma str_eqb_refl (a : jsstring) : str_eqb a a = true.
Proof. now apply str_eqb_eq. Qed.

Lemma nonEmpty_items {A} (o : option (list A)) :
  nonEmpty o = true <-> items o <> [].
Proof.
  destruct o as [[|x l]|]; simpl; split; intros H;
    try reflexivity; try discriminate; congruence.
Qed.

Lemma nonEmpty_false_items {A} (o : option (list A)) :
  nonEmpty o = false <-> items o = [].
Proof.
  destruct o as [[|x l]|]; simpl; split; intros H;
    try reflexivity; discriminate.
Qed.

Lemma filter_all {A} (f : A -> bool) (l : list A) :
  Forall (fun x => f x = true) l -> filter f l = l.
Proof.
  induction 1 as [|x l Hx _ IH]; simpl; [reflexivity|].
  now rewrite Hx, IH.
Qed.

Lemma filter_split_perm {A} (f : A -> bool) (l : list A) :
  Permutation (filter f l ++ filter (fun x => negb (f x)) l) l.
Proof.
  induction l as [|x l IH]; simpl; [constructor|].
  destruct (f x); simpl.
  - now constructor.
  - symmetry. apply Permutation_cons_app. now symmetry.
Qed.

Lemma NoDup_map_eq {A B} (f : A -> B) (l : list A) (x y : A) :
  NoDup (map f l) -> In x l -> In y l -> f x = f y -> x = y.
Proof.
  induction l as [|a l IH]; simpl; [tauto|].
  intros Hnd Hx Hy Hxy. inversion Hnd as [|? ? Hnotin Hnd']; subst.
  destruct Hx as [->|Hx], Hy as [->|Hy]; auto.
  - exfalso. apply Hnotin. rewrite Hxy. now apply in_map.
  - exfalso. apply Hnotin. rewrite <- Hxy. now apply in_map.
Qed.

(** *** [Array.prototype.sort] *)

Section SortFacts.
Variable A : Type.
Variable cmp : A -> A -> Z.

Lemma insert_perm (x : A) (l : list A) :
  Permutation (x :: l) (JS.insert cmp x l).
Proof.
  induction l as [|y l IH]; simpl; [reflexivity|].
  destruct (cmp x y <=? 0)%Z; [reflexivity|].
  rewrite perm_swap. now constructor.
Qed.

Lemma sort_perm (l : list A) : Permutation l (JS.sort cmp l).
Proof.
  induction l as [|x l IH]; simpl; [constructor|].
  etransitivity; [|apply insert_perm]. now constructor.
Qed.

(** An order the comparator decides: not positive means before, positive
    means after. *)
Variable before : A -> A -> Prop.
Hypothesis before_trans : forall x y z, before x y -> before y z -> before x z.
Hypothesis cmp_before : forall x y, (cmp x y <= 0)%Z -> before x y.
Hypothesis cmp_after : forall x y, (0 < cmp x y)%Z -> before y x.

Lemma insert_sorted (x : A) (l : list A) :
  StronglySorted before l -> StronglySorted before (JS.insert cmp x l).
Proof.
  induction 1 as [|y l Hl IH Hy]; simpl.
  - repeat constructor.
  - destruct (Z.leb_spec (cmp x y) 0) as [Hle|Hgt].
    + constructor; [now constructor|].
      constructor; [now apply cmp_before|].
      eapply Forall_impl; [|exact Hy].
      intros z Hz. apply before_trans with y; [now apply cmp_before|exact Hz].
    + constructor; [exact IH|].
      eapply Permutation_Forall; [apply insert_perm|].
      constructor; [now apply cmp_after|exact Hy].
Qed.

Lemma sort_sorted (l : list A) : StronglySorted before (JS.sort cmp l).
Proof.
  induction l as [|x l IH]; simpl; [constructor|].
  now apply insert_sorted.
Qed.
End SortFacts.

Lemma StronglySorted_weaken {A} (R R' : A -> A -> Prop) (l : list A) :
  (forall x y, In x l -> In y l -> R x y -> R' x y) ->
  StronglySorted R l -> StronglySorted R' l.
Proof.
  intros HR Hs. induction Hs as [|x l Hs IH Hx]; constructor.
  - apply IH. intros a b Ha Hb. apply HR; now right.
  - rewrite Forall_forall in *. intros y Hy.
    apply HR; [now left|now right|now apply Hx].
Qed.

(** *** The report partition *)

Lemma isAccomplished_spec (t : Task) :
  isAccomplished t = true <-> accomplished t.
Proof.
  unfold isAccomplished, accomplished.
  destruct (nonEmpty (subtasks t)) eqn:E.
  - apply nonEmpty_items in E. rewrite forallb_forall, Forall_forall.
    split; [intros H; left; auto|].
    intros [[_ H]|[H _]]; [exact H|contradiction].
  - apply nonEmpty_false_items in E.
    split.
    + intros H. right. split; [exact E|].
      destruct (status t); (reflexivity || discriminate).
    + intros [[H _]|[_ H]]; [contradiction|]. now rewrite H.
Qed.

Lemma completedTasksList_In (tasks : list Task) (t : Task) :
  In t (completedTasksList tasks) <-> In t tasks /\ accomplished t.
Proof.
  unfold completedTasksList. now rewrite filter_In, isAccomplished_spec.
Qed.

(** Whatever the identifiers are, the outstanding tasks are the tasks whose
    identifier is the identifier of no accomplished task. *)
Lemma incompleteTasksList_In (tasks : list Task) (t : Task) :
  In t (incompleteTasksList tasks) <->
  In t tasks /\
  ~ exists ct, In ct (completedTasksList tasks) /\ task_id ct = task_id t.
Proof.
  unfold incompleteTasksList. rewrite filter_In, negb_true_iff.
  rewrite <- not_true_iff_false, existsb_exists.
  split; intros [Hin Hn]; split; auto; intros [ct [Hct Hid]]; apply Hn;
    exists ct; split; auto; now apply str_eqb_eq.
Qed.

Lemma distinct_ids_identify (tasks : list Task) :
  NoDup (map task_id tasks) -> idsIdentify tasks.
Proof. intros Hnd a b Ha Hb Hab. eapply NoDup_map_eq; eauto. Qed.

Lemma shares_id_accomplished (tasks : list Task) (t : Task) :
  idsIdentify tasks -> In t tasks ->
  existsb (fun ct => str_eqb (task_id ct) (task_id t))
          (completedTasksList tasks)
  = isAccomplished t.
Proof.
  intros Hid Hin.
  destruct (isAccomplished t) eqn:E.
  - apply existsb_exists. exists t. split; [|apply str_eqb_refl].
    unfold completedTasksList. now apply filter_In.
  - apply not_true_iff_false. rewrite existsb_exists.
    intros [ct [Hct Hsame]]. apply str_eqb_eq in Hsame.
    unfold completedTasksList in Hct. apply filter_In in Hct.
    destruct Hct as [Hct Hacc].
    assert (ct = t) by (now apply Hid). subst ct. congruence.
Qed.

Lemma incompleteTasksList_distinct (tasks : list Task) :
  idsIdentify tasks ->
  incompleteTasksList tasks = filter (fun t => negb (isAccomplished t)) tasks.
Proof.
  intros Hid. unfold incompleteTasksList. apply filter_ext_in.
  intros t Hin. now rewrite shares_id_accomplished.
Qed.

(** No task is in both lists, whatever the identifiers are. *)
Lemma lists_disjoint (tasks : list Task) (t : Task) :
  In t (completedTasksList tasks) -> ~ In t (incompleteTasksList tasks).
Proof.
  intros Hc Hi. apply incompleteTasksList_In in Hi. destruct Hi as [_ Hi].
  apply Hi. now exists t.
Qed.

Lemma incompleteTasksList_by_id (tasks : list Task) (t : Task) :
  In t (incompleteTasksList tasks)
  <-> In t tasks
      /\ ~ In (task_id t) (map task_id (completedTasksList tasks)).
Proof.
  rewrite incompleteTasksList_In, in_map_iff.
  split; intros [Hin Hn]; (split; [exact Hin|]); intros [ct H]; apply Hn;
    exists ct; tauto.
Qed.

Lemma accomplished_or_outstanding (tasks : list Task) (t : Task) :
  In t tasks ->
  In (task_id t) (map task_id (completedTasksList tasks))
  \/ In t (incompleteTasksList tasks).
Proof.
  intros Hin.
  destruct (existsb (fun ct => str_eqb (task_id ct) (task_id t))
                    (completedTasksList tasks)) eqn:E.
  - left. apply existsb_exists in E. destruct E as [ct [Hct Hsame]].
    apply str_eqb_eq in Hsame. rewrite <- Hsame. now apply in_map.
  - right. unfold incompleteTasksList. apply filter_In. now rewrite E.
Qed.

(** C1.  For every task group, a task is among the accomplished ones iff
    it has subtasks that are all completed, or has none and its status is
    completed; the outstanding tasks are the tasks of the group whose
    identifier is the identifier of no accomplished task; both lists keep
    the order of the group.  By identity the two lists partition the
    group: the identifier of every task of the group is the identifier of
    an accomplished task or the task is outstanding, and no identifier
    occurs in both lists.  When two tasks of the group never share an
    identifier, the outstanding tasks are exactly the tasks that are not
    accomplished and the two lists together are a rearrangement of the
    group. *)
Theorem C1_report_partition (tasks : list Task) :
  (forall t, In t (completedTasksList tasks) <-> In t tasks /\ accomplished t)
  /\ (forall t,
        In t (incompleteTasksList tasks)
        <-> In t tasks
            /\ ~ In (task_id t) (map task_id (completedTasksList tasks)))
  /\ completedTasksList tasks = filter isAccomplished tasks
  /\ incompleteTasksList tasks
     = filter
         (fun t =>
            negb (existsb (fun ct => str_eqb (task_id ct) (task_id t))
                          (filter isAccomplished tasks)))
         tasks
  /\ (forall t,
        In t tasks ->
        In (task_id t) (map task_id (completedTasksList tasks))
        \/ In t (incompleteTasksList tasks))
  /\ (forall i,
        ~ (In i (map task_id (completedTasksList tasks))
           /\ In i (map task_id (incompleteTasksList tasks))))
  /\ (forall t,
        In t (completedTasksList tasks) -> ~ In t (incompleteTasksList tasks))
  /\ (idsIdentify tasks ->
      (forall t,
          In t (incompleteTasksList tasks) <-> In t tasks /\ ~ accomplished t)
      /\ Permutation (completedTasksList tasks ++ incompleteTasksList tasks)
                     tasks).
Proof.
  split; [intros t; apply completedTasksList_In|].
  split; [intros t; apply incompleteTasksList_by_id|].
  split; [reflexivity|]. split; [reflexivity|].
  split; [intros t; apply accomplished_or_outstanding|].
  split.
  { intros i [Hc Hi]. apply in_map_iff in Hi. destruct Hi as [b [Hb Hin]].
    apply incompleteTasksList_by_id in Hin. destruct Hin as [_ Hn].
    apply Hn. now rewrite Hb. }
  split; [intros t; apply lists_disjoint|].
  intros Hid.
  pose proof (incompleteTasksList_distinct tasks Hid) as Hinc.
  split.
  - intros t. rewrite Hinc, filter_In, negb_true_iff.
    rewrite <- not_true_iff_false, isAccomplished_spec. tauto.
  - rewrite Hinc. apply filter_split_perm.
Qed.

(** The group of the worked example, and a group in which one identifier
    is carried by an accomplished and by another record. *)
Lemma C1_report_partition_example :
  completedTasksList Samples.juneFirst = [Samples.taskA]
  /\ incompleteTasksList Samples.juneFirst = [Samples.taskB; Samples.taskC]
  /\ idsIdentify Samples.juneFirst
  /\ Permutation
       (completedTasksList Samples.juneFirst
        ++ incompleteTasksList Samples.juneFirst)
       Samples.juneFirst
  /\ completedTasksList Samples.sharedIdGroup = [Samples.dupDone]
  /\ incompleteTasksList Samples.sharedIdGroup = []
  /\ (In (task_id Samples.dupOpen)
         (map task_id (completedTasksList Samples.sharedIdGroup))
      \/ In Samples.dupOpen (incompleteTasksList Samples.sharedIdGroup)).
Proof.
  assert (Hid : idsIdentify Samples.juneFirst).
  { apply distinct_ids_identify. vm_compute.
    repeat constructor; simpl; intuition discriminate. }
  split; [reflexivity|]. split; [reflexivity|]. split; [exact Hid|].
  split.
  { destruct (C1_report_partition Samples.juneFirst)
      as (_ & _ & _ & _ & _ & _ & _ & H).
    exact (proj2 (H Hid)). }
  split; [reflexivity|]. split; [reflexivity|].
  apply (proj1 (proj2 (proj2 (proj2 (proj2
           (C1_report_partition Samples.sharedIdGroup)))))).
  right; left; reflexivity.
Defined.

(** *** The completion rate *)

Lemma completionStep_units (acc : nat * nat) (t : Task) :
  completionStep acc t = (fst acc + unitsOf t, snd acc + completedUnitsOf t).
Proof.
  unfold completionStep, unitsOf, completedUnitsOf.
  destruct (subtasks t) as [[|st sts]|]; simpl;
    destruct (status t); simpl; f_equal; lia.
Qed.

Lemma completionCounters_from (tasks : list Task) (acc : nat * nat) :
  fold_left completionStep tasks acc
  = (fst acc + list_sum (map unitsOf tasks),
     snd acc + list_sum (map completedUnitsOf tasks)).
Proof.
  revert acc; induction tasks as [|t tasks IH]; intros acc; simpl.
  - destruct acc; simpl; f_equal; lia.
  - rewrite IH, completionStep_units. simpl. f_equal; lia.
Qed.

Lemma itemsForCompletion_sum (tasks : list Task) :
  itemsForCompletion tasks = list_sum (map unitsOf tasks).
Proof.
  unfold itemsForCompletion, completionCounters.
  now rewrite completionCounters_from.
Qed.

Lemma completedItemsForCompletion_sum (tasks : list Task) :
  completedItemsForCompletion tasks = list_sum (map completedUnitsOf tasks).
Proof.
  unfold completedItemsForCompletion, completionCounters.
  now rewrite completionCounters_from.
Qed.

Lemma unitsOf_pos (t : Task) : 1 <= unitsOf t.
Proof. unfold unitsOf. lia. Qed.

Lemma itemsForCompletion_zero (tasks : list Task) :
  itemsForCompletion tasks = 0 <-> tasks = [].
Proof.
  rewrite itemsForCompletion_sum. split; [|now intros ->].
  destruct tasks as [|t tasks]; [reflexivity|]. simpl.
  pose proof (unitsOf_pos t). lia.
Qed.

Lemma allUnitsComplete_sum (tasks : list Task) :
  allUnitsComplete tasks ->
  list_sum (map completedUnitsOf tasks) = list_sum (map unitsOf tasks).
Proof.
  induction 1 as [|t tasks Ht _ IH]; simpl; [reflexivity|].
  rewrite IH. f_equal.
  unfold completedUnitsOf, unitsOf.
  destruct (items (subtasks t)) as [|st sts].
  - now rewrite Ht.
  - rewrite filter_all by exact Ht. simpl. lia.
Qed.

(** *** Doubles *)

Lemma fexp_normal (x : Z) :
  (-1021 <= x)%Z -> SpecFloat.fexp Double.prec Double.emax x = (x - 53)%Z.
Proof.
  unfold SpecFloat.fexp, SpecFloat.emin, Double.prec, Double.emax. lia.
Qed.

Lemma digits2_size (p : positive) : SpecFloat.digits2_pos p = Pos.size p.
Proof. induction p; simpl; congruence. Qed.

Lemma digits2_shift (p k : positive) :
  SpecFloat.digits2_pos (Pos.iter xO p k)
  = (SpecFloat.digits2_pos p + k)%positive.
Proof.
  induction k using Pos.peano_ind.
  - simpl. lia.
  - rewrite Pos.iter_succ. simpl. rewrite IHk. lia.
Qed.

(** A mantissa of 53 bits with an exponent in range needs no rounding. *)
Lemma round_exact (m : positive) (e : Z) :
  Z.pos (SpecFloat.digits2_pos m) = 53%Z -> (-1074 <= e <= 971)%Z ->
  SpecFloat.binary_round_aux Double.prec Double.emax false (Z.pos m) e
    SpecFloat.loc_Exact
  = SpecFloat.S754_finite false m e.
Proof.
  intros Hd He.
  unfold SpecFloat.binary_round_aux, SpecFloat.shr_fexp.
  cbn [SpecFloat.Zdigits2 SpecFloat.shr_record_of_loc].
  rewrite Hd, fexp_normal by lia.
  replace (53 + e - 53 - e)%Z with 0%Z by lia.
  cbn [SpecFloat.shr SpecFloat.shr_m SpecFloat.loc_of_shr_record
       SpecFloat.round_nearest_even SpecFloat.Zdigits2
       SpecFloat.shr_record_of_loc].
  rewrite Hd, fexp_normal by lia.
  replace (53 + e - 53 - e)%Z with 0%Z by lia.
  cbn [SpecFloat.shr SpecFloat.shr_m].
  destruct (Z.leb_spec e (Double.emax - Double.prec)); [reflexivity|].
  unfold Double.emax, Double.prec in *. lia.
Qed.

(** A positive integer below 2^53 is a positive finite double. *)
Lemma ofZ_finite (z : Z) :
  (0 < z < 2 ^ 53)%Z ->
  exists m e, Double.ofZ z = SpecFloat.S754_finite false m e.
Proof.
  intros [Hpos Hlt]. destruct z as [|p|p]; try lia.
  assert (Hd : (Z.pos (SpecFloat.digits2_pos p) <= 53)%Z).
  { rewrite digits2_size. pose proof (Pos.size_le p) as Hs.
    assert (H2 : (2 ^ Z.pos (Pos.size p) <= 2 * Z.pos p)%Z).
    { rewrite <- Pos2Z.inj_pow. change 2%Z with (Z.pos 2).
      rewrite <- Pos2Z.inj_mul. lia. }
    destruct (Z_le_gt_dec (Z.pos (Pos.size p)) 53) as [|Hgt]; [assumption|].
    assert (2 ^ 54 <= 2 ^ Z.pos (Pos.size p))%Z
      by (apply Z.pow_le_mono_r; lia).
    lia. }
  unfold Double.ofZ, SpecFloat.binary_normalize, SpecFloat.binary_round,
    SpecFloat.shl_align.
  rewrite Z.add_0_r, fexp_normal, Z.sub_0_r by lia.
  destruct (Z.pos (SpecFloat.digits2_pos p) - 53)%Z as [|k|k] eqn:Ek; try lia.
  - exists p, 0%Z. apply round_exact; lia.
  - exists (Pos.iter xO p k), (Z.neg k). apply round_exact; [|lia].
    rewrite digits2_shift. lia.
Qed.

(** A finite double divided by itself is 1, without rounding. *)
Lemma div_self (s : bool) (m : positive) (e : Z) :
  Double.div (SpecFloat.S754_finite s m e) (SpecFloat.S754_finite s m e)
  = Double.one.
Proof.
  unfold Double.div, SpecFloat.SFdiv, SpecFloat.SFdiv_core_binary.
  rewrite !Z.sub_diag.
  change (SpecFloat.fexp Double.prec Double.emax 0) with (-53)%Z.
  change (Z.min (-53) 0) with (-53)%Z.
  change (0 - -53)%Z with 53%Z. cbv iota beta.
  assert (H : Z.div_eucl (Z.shiftl (Z.pos m) 53) (Z.pos m) = (2 ^ 53, 0)%Z).
  { rewrite Z.shiftl_mul_pow2 by lia.
    pose proof (Z.div_eucl_eq (Z.pos m * 2 ^ 53) (Z.pos m) ltac:(lia)) as Heq.
    pose proof (Z.mod_pos_bound (Z.pos m * 2 ^ 53) (Z.pos m) ltac:(lia)) as Hb.
    unfold Z.modulo, Z.div in *.
    destruct (Z.div_eucl (Z.pos m * 2 ^ 53) (Z.pos m)) as [q r].
    assert (r = 0)%Z.
    { assert (Hr : (r = Z.pos m * (2 ^ 53 - q))%Z) by lia.
      assert (2 ^ 53 - q = 0 \/ 2 ^ 53 - q < 0 \/ 0 < 2 ^ 53 - q)%Z by lia.
      nia. }
    subst r. f_equal. nia. }
  rewrite H.
  unfold SpecFloat.new_location, SpecFloat.new_location_even,
    SpecFloat.new_location_odd.
  destruct (IntDef.Z.even (Z.pos m)), s; reflexivity.
Qed.

Lemma full_rate (n : nat) :
  0 < n -> (Z.of_nat n < 2 ^ 53)%Z ->
  Double.mul (Double.div (Double.ofNat n) (Double.ofNat n)) Double.hundred
  = Double.hundred.
Proof.
  intros Hpos Hlt. unfold Double.ofNat.
  destruct (ofZ_finite (Z.of_nat n)) as [m [e Hm]]; [lia|].
  rewrite Hm, div_self. reflexivity.
Qed.

Lemma null_rate (d : nat) :
  0 < d -> (Z.of_nat d < 2 ^ 53)%Z ->
  Double.mul (Double.div (Double.ofNat 0) (Double.ofNat d)) Double.hundred
  = Double.zero.
Proof.
  intros Hpos Hlt. unfold Double.ofNat.
  destruct (ofZ_finite (Z.of_nat d)) as [m [e Hm]]; [lia|].
  rewrite Hm. reflexivity.
Qed.

(** *** The completion rate as a double *)

Lemma completionRate_double (tasks : list Task) :
  itemsForCompletion tasks <> 0 ->
  completionRate tasks
  = Double.mul
      (Double.div (Double.ofNat (completedItemsForCompletion tasks))
                  (Double.ofNat (itemsForCompletion tasks)))
      Double.hundred.
Proof.
  intros Hden. unfold completionRate.
  destruct (Nat.ltb_spec 0 (itemsForCompletion tasks)) as [_|H]; [|lia].
  reflexivity.
Qed.

(** C2 (as amended).  The denominator of the completion rate adds
    max(1, number of subtasks) per task and the numerator adds the number
    of completed subtasks, or 1 for a completed task without subtasks; the
    rate is the double that the source computes from them, the quotient
    numerator / denominator rounded to a double and then multiplied by 100
    and rounded again; it is 0 when the denominator is 0 (as for the empty
    group), and it is exactly 100 when the group has tasks and every unit
    is complete (for fewer than 2^53 units). *)
Theorem C2_completion_rate (tasks : list Task) :
  itemsForCompletion tasks = list_sum (map unitsOf tasks)
  /\ completedItemsForCompletion tasks = list_sum (map completedUnitsOf tasks)
  /\ (itemsForCompletion tasks <> 0 ->
      completionRate tasks
      = Double.mul
          (Double.div (Double.ofNat (list_sum (map completedUnitsOf tasks)))
                      (Double.ofNat (list_sum (map unitsOf tasks))))
          Double.hundred)
  /\ (itemsForCompletion tasks = 0 -> completionRate tasks = Double.zero)
  /\ (tasks = [] -> completionRate tasks = Double.zero)
  /\ (tasks <> [] -> allUnitsComplete tasks ->
      (Z.of_nat (itemsForCompletion tasks) < 2 ^ 53)%Z ->
      completionRate tasks = Double.hundred).
Proof.
  split; [apply itemsForCompletion_sum|].
  split; [apply completedItemsForCompletion_sum|].
  split.
  { intros H. rewrite completionRate_double by exact H.
    now rewrite itemsForCompletion_sum, completedItemsForCompletion_sum. }
  split.
  { intros H. unfold completionRate. now rewrite H. }
  split.
  { intros ->. reflexivity. }
  intros Hne Hall Hsafe.
  assert (Hden : itemsForCompletion tasks <> 0).
  { now rewrite itemsForCompletion_zero. }
  rewrite completionRate_double by exact Hden.
  assert (Hnum : completedItemsForCompletion tasks = itemsForCompletion tasks).
  { rewrite completedItemsForCompletion_sum, itemsForCompletion_sum.
    now apply allUnitsComplete_sum. }
  rewrite Hnum. apply full_rate; [lia|exact Hsafe].
Qed.

(** The worked example of the specification: 2 of 4 units, that is 50;
    and a group whose only task is complete. *)
Lemma C2_completion_rate_example :
  itemsForCompletion Samples.juneFirst = 4
  /\ completedItemsForCompletion Samples.juneFirst = 2
  /\ completionRate Samples.juneFirst = Double.ofZ 50
  /\ [Samples.taskA] <> []
  /\ allUnitsComplete [Samples.taskA]
  /\ (Z.of_nat (itemsForCompletion [Samples.taskA]) < 2 ^ 53)%Z
  /\ completionRate [Samples.taskA] = Double.hundred.
Proof.
  assert (Hall : allUnitsComplete [Samples.taskA]) by (repeat constructor).
  assert (Hsafe : (Z.of_nat (itemsForCompletion [Samples.taskA]) < 2 ^ 53)%Z)
    by reflexivity.
  split; [reflexivity|]. split; [reflexivity|]. split; [reflexivity|].
  split; [discriminate|]. split; [exact Hall|]. split; [exact Hsafe|].
  destruct (C2_completion_rate [Samples.taskA]) as (_ & _ & _ & _ & _ & H).
  apply H; [discriminate|exact Hall|exact Hsafe].
Defined.

(** With 23 of 40 units complete the source computes the double
    57.49999999999999 (8092405580431359 / 2^47): it is not 100 times 23
    over 40, which is 57.5, neither in exact arithmetic nor when the
    product is taken before the quotient in doubles, and it lies below
    57.5, the value from which the percentage is displayed as 58. *)
Lemma C2_rate_is_rounded :
  itemsForCompletion Samples.fortyUnits = 40
  /\ completedItemsForCompletion Samples.fortyUnits = 23
  /\ completionRate Samples.fortyUnits
     = SpecFloat.S754_finite false 8092405580431359 (-47)
  /\ Double.exactly (completionRate Samples.fortyUnits)
       (8092405580431359 # 140737488355328)
  /\ (8092405580431359 # 140737488355328 < percentOf 23 40)%Q
  /\ ~ Double.exactly (completionRate Samples.fortyUnits) (percentOf 23 40)
  /\ Double.exactly
       (Double.div (Double.mul Double.hundred (Double.ofNat 23))
                   (Double.ofNat 40))
       (percentOf 23 40)
  /\ completionRate Samples.fortyUnits
     <> Double.div (Double.mul Double.hundred (Double.ofNat 23))
                   (Double.ofNat 40).
Proof.
  split; [reflexivity|]. split; [reflexivity|]. split; [reflexivity|].
  split; [reflexivity|]. split; [reflexivity|].
  split; [intros H; vm_compute in H; discriminate|].
  split; [reflexivity|].
  intros H. vm_compute in H. discriminate.
Qed.

(** *** Tabs and counts *)

Section TabFacts.
Variable dayOf : Z -> Z.
Variable now : Z.

Lemma status_eqb_eq (a b : TaskStatus) : status_eqb a b = true <-> a = b.
Proof. destruct a, b; simpl; split; (reflexivity || discriminate). Qed.

Lemma inTab_spec (tab : TaskStatus) (t : Task) :
  inTab dayOf now tab t = true <-> tabMember dayOf now tab t.
Proof.
  unfold inTab, tabMember, onCurrentDay, onAnotherDay, isToday.
  destruct tab.
  - rewrite orb_true_iff, andb_true_iff, !status_eqb_eq.
    apply or_iff_compat_l, and_iff_compat_l.
    destruct (completedAt t) as [d|].
    + rewrite Z.eqb_eq. split; [intros H; exists d; auto|].
      now intros [d' [[= <-] H]].
    + split; [discriminate|]. now intros [d' [[=] _]].
  - rewrite andb_true_iff, status_eqb_eq. apply and_iff_compat_l.
    destruct (completedAt t) as [d|].
    + rewrite negb_true_iff, Z.eqb_neq. split; [intros H; exists d; auto|].
      now intros [d' [[= <-] H]].
    + split; [discriminate|]. now intros [d' [[=] _]].
  - apply status_eqb_eq.
Qed.

Lemma getCount_inTab (tab : TaskStatus) (tasks : list Task) :
  getCount dayOf now tab tasks = length (filter (inTab dayOf now tab) tasks).
Proof. destruct tab; reflexivity. Qed.

(** C3.  The filtered list of a tab holds, in the order of the
    collection, the tasks that are: for the current tab, current or
    completed on the current calendar day; for the completed tab,
    completed on another calendar day; for the pending tab, pending.
    The count displayed for a tab is the number of tasks of the whole
    collection under the same predicate, whichever tab is active. *)
Theorem C3_tab_membership (tasks : list Task) (tab : TaskStatus) :
  (forall t,
      In t (filteredTasks dayOf now tab tasks)
      <-> In t tasks /\ tabMember dayOf now tab t)
  /\ (exists keep : Task -> bool,
        (forall t, keep t = true <-> tabMember dayOf now tab t)
        /\ filteredTasks dayOf now tab tasks = filter keep tasks
        /\ getCount dayOf now tab tasks = length (filter keep tasks))
  /\ getCount dayOf now tab tasks
     = length (filteredTasks dayOf now tab tasks).
Proof.
  split.
  { intros t. unfold filteredTasks. now rewrite filter_In, inTab_spec. }
  split.
  { exists (inTab dayOf now tab). split; [intros t; apply inTab_spec|].
    split; [reflexivity|apply getCount_inTab]. }
  apply getCount_inTab.
Qed.

Lemma inTab_completed_undated (tab : TaskStatus) (t : Task) :
  status t = Completed -> completedAt t = None ->
  inTab dayOf now tab t = false.
Proof.
  intros Hs Hc. unfold inTab. rewrite Hs, Hc. now destruct tab.
Qed.

(** C10.  A task whose status is completed and whose completedAt is
    absent is a member of no tab: no filtered list holds it, and no
    displayed count changes when it is added to the collection. *)
Theorem C10_completed_undated_in_no_tab (t : Task) :
  status t = Completed -> completedAt t = None ->
  forall tab : TaskStatus,
    ~ tabMember dayOf now tab t
    /\ (forall tasks, ~ In t (filteredTasks dayOf now tab tasks))
    /\ (forall before after,
          getCount dayOf now tab (before ++ t :: after)
          = getCount dayOf now tab (before ++ after)).
Proof.
  intros Hs Hc tab.
  pose proof (inTab_completed_undated tab t Hs Hc) as Hout.
  split.
  { rewrite <- inTab_spec. now rewrite Hout. }
  split.
  { intros tasks Hin. unfold filteredTasks in Hin.
    apply filter_In in Hin. destruct Hin as [_ Hin]. congruence. }
  intros before after. rewrite !getCount_inTab, !filter_app.
  simpl. now rewrite Hout.
Qed.
End TabFacts.

(** *** Date groups *)

Lemma DateKey_eqb_spec (a b : DateKey) : reflect (a = b) (DateKey_eqb a b).
Proof.
  destruct a as [|x], b as [|y]; simpl; try (constructor; congruence).
  destruct (Z.eqb_spec x y); constructor; congruence.
Qed.

Lemma DateKey_eqb_refl (a : DateKey) : DateKey_eqb a a = true.
Proof. now destruct (DateKey_eqb_spec a a). Qed.

Lemma groupAt_addToGroup acc k task k' :
  groupAt (addToGroup acc k task) k'
  = if DateKey_eqb k k' then groupAt acc k' ++ [task] else groupAt acc k'.
Proof.
  induction acc as [|[k0 g] acc IH]; simpl.
  - now destruct (DateKey_eqb k k').
  - destruct (DateKey_eqb_spec k0 k) as [->|Hk0]; simpl.
    + now destruct (DateKey_eqb_spec k k').
    + rewrite IH.
      destruct (DateKey_eqb_spec k0 k') as [->|Hk0']; [|reflexivity].
      now destruct (DateKey_eqb_spec k k'); [congruence|].
Qed.

Lemma keys_addToGroup acc k task :
  map fst (addToGroup acc k task)
  = if existsb (fun k0 => DateKey_eqb k0 k) (map fst acc)
    then map fst acc else map fst acc ++ [k].
Proof.
  induction acc as [|[k0 g] acc IH]; simpl; [reflexivity|].
  destruct (DateKey_eqb k0 k); simpl; [reflexivity|].
  rewrite IH. now destruct (existsb _ _).
Qed.

Lemma keys_addToGroup_In acc k task k' :
  In k' (map fst (addToGroup acc k task)) <-> In k' (map fst acc) \/ k' = k.
Proof.
  rewrite keys_addToGroup.
  destruct (existsb _ _) eqn:E.
  - split; [now left|]. intros [H| ->]; [exact H|].
    apply existsb_exists in E. destruct E as [k0 [Hin Heq]].
    now destruct (DateKey_eqb_spec k0 k); [subst|].
  - rewrite in_app_iff. simpl. intuition.
Qed.

Lemma keys_addToGroup_NoDup acc k task :
  NoDup (map fst acc) -> NoDup (map fst (addToGroup acc k task)).
Proof.
  intros Hnd. rewrite keys_addToGroup.
  destruct (existsb _ _) eqn:E; [exact Hnd|].
  apply NoDup_app; [exact Hnd|repeat constructor; simpl; tauto|].
  intros x Hx [Hk|[]]. subst x.
  assert (existsb (fun k0 => DateKey_eqb k0 k) (map fst acc) = true);
    [|congruence].
  apply existsb_exists. exists k. split; [exact Hx|apply DateKey_eqb_refl].
Qed.

Section GroupFacts.
Variable dayOf : Z -> Z.
Variable tab : TaskStatus.

Let step (acc : list (DateKey * list Task)) (task : Task) :=
addToGroup acc (dateKeyOf dayOf tab task) task.

Let sameKey (k : DateKey) (t : Task) : bool :=
DateKey_eqb (dateKeyOf dayOf tab t) k.

Lemma groupAt_fold tasks acc k :
groupAt (fold_left step tasks acc) k = groupAt acc k ++ filter (sameKey k) tasks.
Proof.
revert acc; induction tasks as [|t tasks IH]; intros acc; simpl.
- now rewrite app_nil_r.
- rewrite IH. unfold step. rewrite groupAt_addToGroup.
  unfold sameKey.
  destruct (DateKey_eqb _ k); [now rewrite <- app_assoc|reflexivity].
Qed.

Lemma keys_fold_In tasks acc k :
In k (map fst (fold_left step tasks acc))
<-> In k (map fst acc) \/ exists t, In t tasks /\ dateKeyOf dayOf tab t = k.
Proof.
revert acc; induction tasks as [|t tasks IH]; intros acc; simpl.
- split; [now left|]. now intros [H|[t [[] _]]].
- rewrite IH. unfold step. rewrite keys_addToGroup_In.
  split.
  + intros [[H| ->]|[t' [Ht' Hk]]]; [now left| |].
    * right. exists t. auto.
    * right. exists t'. auto.
  + intros [H|[t' [[<-|Ht'] Hk]]]; [now left; left| |].
    * left; right. now symmetry.
    * right. exists t'. auto.
Qed.

Lemma keys_fold_NoDup tasks acc :
NoDup (map fst acc) -> NoDup (map fst (fold_left step tasks acc)).
Proof.
revert acc; induction tasks as [|t tasks IH]; intros acc Hnd; simpl.
- exact Hnd.
- apply IH. now apply keys_addToGroup_NoDup.
Qed.

Lemma groupedTasks_groupAt tasks k :
groupAt (groupedTasks dayOf tab tasks) k = filter (sameKey k) tasks.
Proof. exact (groupAt_fold tasks [] k). Qed.

Lemma groupedTasks_keys tasks k :
In k (map fst (groupedTasks dayOf tab tasks))
<-> exists t, In t tasks /\ dateKeyOf dayOf tab t = k.
Proof.
pose proof (keys_fold_In tasks [] k) as H. simpl in H.
unfold groupedTasks. fold step. tauto.
Qed.

Lemma groupedTasks_NoDup tasks :
NoDup (map fst (groupedTasks dayOf tab tasks)).
Proof. apply (keys_fold_NoDup tasks []). constructor. Qed.
End GroupFacts.

Lemma flat_map_nil {A B} (l : list A) : flat_map (fun _ => @nil B) l = [].
Proof. induction l; simpl; auto. Qed.

Lemma flat_map_agree {A B} (f g : A -> list B) (l : list A) :
  (forall a, In a l -> f a = g a) -> flat_map f l = flat_map g l.
Proof.
  induction l as [|a l IH]; simpl; intros H; [reflexivity|].
  rewrite H by now left. f_equal. apply IH. intros; apply H. now right.
Qed.

(** Filing a list under the keys of a duplicate-free list that covers it
    rearranges the list. *)
Lemma filed_perm {A} (key : A -> DateKey) (l : list A) (ks : list DateKey) :
  NoDup ks -> (forall x, In x l -> In (key x) ks) ->
  Permutation (flat_map (fun k => filter (fun x => DateKey_eqb (key x) k) l) ks) l.
Proof.
  intros Hnd. induction l as [|x l IH]; intros Hcov; simpl.
  - now rewrite flat_map_nil.
  - destruct (in_split (key x) ks (Hcov x (or_introl eq_refl)))
      as [ks1 [ks2 Hks]].
    assert (Hx1 : ~ In (key x) ks1 /\ ~ In (key x) ks2).
    { rewrite Hks in Hnd. apply NoDup_remove_2 in Hnd.
      rewrite in_app_iff in Hnd. tauto. }
    assert (Hrest : forall ks', ~ In (key x) ks' ->
      flat_map (fun k => if DateKey_eqb (key x) k
                         then x :: filter (fun y => DateKey_eqb (key y) k) l
                         else filter (fun y => DateKey_eqb (key y) k) l) ks'
      = flat_map (fun k => filter (fun y => DateKey_eqb (key y) k) l) ks').
    { intros ks' Hn. apply flat_map_agree. intros k Hk.
      destruct (DateKey_eqb_spec (key x) k); [subst; contradiction|reflexivity]. }
    specialize (IH (fun y Hy => Hcov y (or_intror Hy))).
    rewrite Hks in IH |- *. rewrite flat_map_app in IH |- *. simpl in IH |- *.
    rewrite DateKey_eqb_refl, !Hrest by tauto.
    simpl. rewrite <- Permutation_middle. now constructor.
Qed.

Lemma compareKeys_before (a b : DateKey) :
  (compareKeys a b <= 0)%Z -> keyNotAfter a b.
Proof.
  destruct a as [|x], b as [|y]; unfold compareKeys, keyTime, msPerDay;
    simpl; lia.
Qed.

Lemma compareKeys_after (a b : DateKey) :
  (0 < compareKeys a b)%Z -> keyNotAfter b a.
Proof.
  destruct a as [|x], b as [|y]; unfold compareKeys, keyTime, msPerDay;
    simpl; lia.
Qed.

Lemma keyNotAfter_trans (a b c : DateKey) :
  keyNotAfter a b -> keyNotAfter b c -> keyNotAfter a c.
Proof. destruct a, b, c; simpl; lia. Qed.

Lemma keyNotAfter_strict (l : list DateKey) :
  NoDup l -> StronglySorted keyNotAfter l -> StronglySorted keyBefore l.
Proof.
  intros Hnd Hs. induction Hs as [|a l Hs IH Ha]; constructor.
  - apply IH. now inversion Hnd.
  - inversion Hnd as [|? ? Hnotin _]; subst.
    rewrite Forall_forall in *. intros b Hb. specialize (Ha b Hb).
    assert (a <> b) by (intros ->; contradiction).
    destruct a as [|x], b as [|y]; simpl in *; try tauto.
    assert (x <> y) by congruence. lia.
Qed.

Section DateGroupFacts.
Variable dayOf : Z -> Z.

Lemma dateGroups_keys tab tasks :
map fst (dateGroups dayOf tab tasks)
= JS.sort compareKeys (map fst (groupedTasks dayOf tab tasks)).
Proof.
unfold dateGroups, sortedGroupKeys. rewrite map_map. simpl. apply map_id.
Qed.

Lemma dateGroups_In tab tasks k g :
In (k, g) (dateGroups dayOf tab tasks)
<-> (exists t, In t tasks /\ dateKeyOf dayOf tab t = k)
    /\ g = filter (fun t => DateKey_eqb (dateKeyOf dayOf tab t) k) tasks.
Proof.
unfold dateGroups, sortedGroupKeys. rewrite in_map_iff.
split.
- intros [k' [[= -> <-] Hin]].
  eapply Permutation_in in Hin; [|symmetry; apply sort_perm].
  apply groupedTasks_keys in Hin. split; [exact Hin|].
  apply groupedTasks_groupAt.
- intros [Hk ->]. exists k. split.
  + f_equal. apply groupedTasks_groupAt.
  + eapply Permutation_in; [apply sort_perm|]. now apply groupedTasks_keys.
Qed.

(** C4.  The date groups of a task list form a partition of it: every
  group is non-empty and holds, in list order, the tasks whose date key
  (completedAt's calendar day in the completed tab, dueDate's calendar
  day otherwise, 'No Date' when that date is missing) is the key of the
  group; every task of the list is in the group of its key and in no
  other; and the groups come with the 'No Date' group last and the
  calendar days strictly descending. *)
Theorem C4_date_groups_partition (tab : TaskStatus) (tasksToRender : list Task) :
(forall k g,
    In (k, g) (dateGroups dayOf tab tasksToRender) ->
    g <> []
    /\ g = filter (fun t => DateKey_eqb (dateKeyOf dayOf tab t) k)
                  tasksToRender)
/\ (forall t,
      In t tasksToRender ->
      exists g,
        In (dateKeyOf dayOf tab t, g) (dateGroups dayOf tab tasksToRender)
        /\ In t g
        /\ forall k' g',
             In (k', g') (dateGroups dayOf tab tasksToRender) ->
             In t g' -> (k', g') = (dateKeyOf dayOf tab t, g))
/\ (forall t,
      dateKeyOf dayOf tab t
      = match (match tab with
               | Completed => completedAt t
               | _ => dueDate t
               end) with
        | Some d => Day (dayOf d)
        | None => NoDate
        end)
/\ NoDup (map fst (dateGroups dayOf tab tasksToRender))
/\ Permutation (concat (map snd (dateGroups dayOf tab tasksToRender)))
               tasksToRender
/\ StronglySorted keyBefore (map fst (dateGroups dayOf tab tasksToRender)).
Proof.
assert (Hnd : NoDup (map fst (dateGroups dayOf tab tasksToRender))).
{ rewrite dateGroups_keys. eapply Permutation_NoDup; [apply sort_perm|].
  apply groupedTasks_NoDup. }
split.
{ intros k g Hin. apply dateGroups_In in Hin.
  destruct Hin as [[t [Ht Hk]] Hg]. split; [|exact Hg].
  intros Hnil. assert (Hin : In t g).
  { rewrite Hg. apply filter_In. split; [exact Ht|].
    rewrite Hk. apply DateKey_eqb_refl. }
  now rewrite Hnil in Hin. }
split.
{ intros t Ht.
  exists (filter (fun t' => DateKey_eqb (dateKeyOf dayOf tab t')
                                        (dateKeyOf dayOf tab t))
                 tasksToRender).
  split; [apply dateGroups_In; split; [now exists t|reflexivity]|].
  split; [apply filter_In; split; [exact Ht|apply DateKey_eqb_refl]|].
  intros k' g' Hin' Ht'. apply dateGroups_In in Hin'.
  destruct Hin' as [_ ->]. apply filter_In in Ht'. destruct Ht' as [_ Hk].
  now destruct (DateKey_eqb_spec (dateKeyOf dayOf tab t) k'); [subst|]. }
split.
{ intros t. unfold dateKeyOf, formatDay. now destruct tab. }
split; [exact Hnd|].
split.
{ rewrite <- flat_map_concat_map.
  unfold dateGroups. rewrite flat_map_concat_map, map_map. simpl.
  rewrite <- flat_map_concat_map.
  erewrite flat_map_ext; [|intros k; apply groupedTasks_groupAt].
  apply filed_perm.
  - eapply Permutation_NoDup; [apply sort_perm|]. apply groupedTasks_NoDup.
  - intros t Ht. eapply Permutation_in; [apply sort_perm|].
    apply groupedTasks_keys. now exists t. }
apply keyNotAfter_strict; [exact Hnd|].
rewrite dateGroups_keys. apply sort_sorted.
- exact keyNotAfter_trans.
- exact compareKeys_before.
- exact compareKeys_after.
Qed.
End DateGroupFacts.

(** *** The order of the tasks of a group *)

Lemma timeOr0_Some (t : Z) : timeOr0 (Some t) = t.
Proof. simpl. destruct (Z.eqb_spec t 0); congruence. Qed.

Lemma compareTasks_before tab (a b : Task) :
  tab <> Completed -> (compareTasks tab a b <= 0)%Z -> taskBefore tab a b.
Proof.
  intros Htab. unfold compareTasks, taskBefore.
  destruct tab; [|congruence|];
    destruct (dueDate a), (dueDate b); simpl; lia.
Qed.

Lemma compareTasks_after tab (a b : Task) :
  tab <> Completed -> (0 < compareTasks tab a b)%Z -> taskBefore tab b a.
Proof.
  intros Htab. unfold compareTasks, taskBefore.
  destruct tab; [|congruence|];
    destruct (dueDate a), (dueDate b); simpl; lia.
Qed.

Lemma taskBefore_trans tab (a b c : Task) :
  tab <> Completed ->
  taskBefore tab a b -> taskBefore tab b c -> taskBefore tab a c.
Proof.
  intros Htab. unfold taskBefore.
  destruct tab; [|congruence|];
    destruct (dueDate a), (dueDate b), (dueDate c); simpl; lia.
Qed.

Lemma sortTasks_byCompletionTime (g : list Task) :
  StronglySorted byCompletionTime (sortTasks Completed g).
Proof.
  apply sort_sorted; unfold byCompletionTime, compareTasks; intros; lia.
Qed.

Lemma byCompletionTime_taskBefore (g : list Task) (a b : Task) :
  timestampsComparable Completed g -> In a g -> In b g ->
  byCompletionTime a b -> taskBefore Completed a b.
Proof.
  unfold byCompletionTime, taskBefore. simpl. intros Hg Ha Hb.
  destruct (completedAt b) as [tb|] eqn:Eb; [|now destruct (completedAt a)].
  destruct (completedAt a) as [ta|] eqn:Ea.
  - now rewrite !timeOr0_Some.
  - rewrite timeOr0_Some. simpl. intros Hle.
    destruct Hg as [Hg|Hg]; [now apply (Hg a Ha)|].
    specialize (Hg b tb Hb Eb). lia.
Qed.

Lemma sortTasks_sorted tab (g : list Task) :
  timestampsComparable tab g ->
  StronglySorted (taskBefore tab) (sortTasks tab g).
Proof.
  intros Hg.
  assert (Hin : forall x, In x (sortTasks tab g) -> In x g).
  { intros x. apply Permutation_in. symmetry. apply sort_perm. }
  destruct tab.
  - apply sort_sorted.
    + intros x y z. now apply taskBefore_trans.
    + intros x y. now apply compareTasks_before.
    + intros x y. now apply compareTasks_after.
  - eapply StronglySorted_weaken; [|apply sortTasks_byCompletionTime].
    intros x y Hx Hy. apply (byCompletionTime_taskBefore g); auto.
  - apply sort_sorted.
    + intros x y z. now apply taskBefore_trans.
    + intros x y. now apply compareTasks_before.
    + intros x y. now apply compareTasks_after.
Qed.

Section OrderFacts.
Variable dayOf : Z -> Z.
Variable now : Z.

Lemma filtered_group_comparable tab tasks k g :
In (k, g) (dateGroups dayOf tab (filteredTasks dayOf now tab tasks)) ->
timestampsComparable tab g.
Proof.
intros Hin. destruct tab; simpl; auto. left. intros t Ht.
apply dateGroups_In in Hin. destruct Hin as [_ ->].
apply filter_In in Ht. destruct Ht as [Ht _].
unfold filteredTasks in Ht. apply filter_In in Ht. destruct Ht as [_ Ht].
simpl in Ht. apply andb_true_iff in Ht. destruct Ht as [_ Ht].
now destruct (completedAt t).
Qed.

(** C5.  The tasks of a date group are displayed as a rearrangement of the
  group that is ordered: in the completed tab by completedAt descending,
  a missing timestamp counting as the earliest; in the other tabs the
  tasks with a due date first, by due date ascending, then the tasks
  without, by createdAt descending.  This holds for every date group of
  the filtered list of a tab. *)
Theorem C5_order_within_group (tab : TaskStatus) :
(forall g,
    timestampsComparable tab g ->
    Permutation g (sortTasks tab g)
    /\ StronglySorted (taskBefore tab) (sortTasks tab g))
/\ (forall tasks k g,
      In (k, g) (dateGroups dayOf tab (filteredTasks dayOf now tab tasks)) ->
      In (k, sortTasks tab g)
         (renderTaskList dayOf tab (filteredTasks dayOf now tab tasks))
      /\ Permutation g (sortTasks tab g)
      /\ StronglySorted (taskBefore tab) (sortTasks tab g)).
Proof.
split.
- intros g Hg. split; [apply sort_perm|now apply sortTasks_sorted].
- intros tasks k g Hin. split.
  + unfold renderTaskList. apply in_map_iff. now exists (k, g).
  + split; [apply sort_perm|].
    apply sortTasks_sorted. now apply (filtered_group_comparable _ tasks k).
Qed.
End OrderFacts.

(** *** The check-box cascade *)

Lemma setCompleted_idem (v : bool) (sts : list Subtask) :
  map (setCompleted v) (map (setCompleted v) sts) = map (setCompleted v) sts.
Proof. rewrite map_map. reflexivity. Qed.

(** C6.  For a task with at least one subtask, the update produced by
    setting the primary check box to [checked] carries the same subtasks
    with every completed flag equal to [checked], the status completed with
    completedAt set when [checked] is true, and the status current with
    completedAt cleared when it is false; setting the box to the same value
    again on the updated task produces the same subtasks. *)
Theorem C6_primary_checkbox_cascade (now : Z) (task : Task) (checked : bool) :
  items (subtasks task) <> [] ->
  u_subtasks (updates (handleCheck now task checked))
  = Some (Some (map (setCompleted checked) (items (subtasks task))))
  /\ Forall (fun st => completed st = checked)
            (items (subtasks
                      (applyUpdates task
                         (updates (handleCheck now task checked)))))
  /\ map subtask_id
         (items (subtasks
                   (applyUpdates task (updates (handleCheck now task checked)))))
     = map subtask_id (items (subtasks task))
  /\ map subtask_title
         (items (subtasks
                   (applyUpdates task (updates (handleCheck now task checked)))))
     = map subtask_title (items (subtasks task))
  /\ u_status (updates (handleCheck now task checked))
     = Some (if checked then Completed else Current)
  /\ u_completedAt (updates (handleCheck now task checked))
     = Some (if checked then Some now else None)
  /\ (forall later,
        u_subtasks
          (updates
             (handleCheck later
                (applyUpdates task (updates (handleCheck now task checked)))
                checked))
        = u_subtasks (updates (handleCheck now task checked))
        /\ subtasks
             (applyUpdates
                (applyUpdates task (updates (handleCheck now task checked)))
                (updates
                   (handleCheck later
                      (applyUpdates task
                         (updates (handleCheck now task checked)))
                      checked)))
           = subtasks
               (applyUpdates task (updates (handleCheck now task checked)))).
Proof.
  intros Hne.
  destruct (subtasks task) as [[|st sts]|] eqn:E; simpl in Hne; try congruence.
  unfold handleCheck, applyUpdates. rewrite E. simpl.
  split; [reflexivity|].
  split.
  { constructor; [reflexivity|]. apply Forall_forall. intros x Hx.
    apply in_map_iff in Hx. now destruct Hx as [x0 [<- _]]. }
  split; [now rewrite map_map|].
  split; [now rewrite map_map|].
  split; [reflexivity|]. split; [reflexivity|].
  intros later. now rewrite setCompleted_idem.
Qed.

(** The subtasks after the check box of [subtaskId] is set to [checked]. *)
Lemma handleSubtaskCheck_subtasks now task subtaskId checked :
  u_subtasks (updates (handleSubtaskCheck now task subtaskId checked))
  = Some (option_map
            (map (fun st =>
                    if str_eqb (subtask_id st) subtaskId
                    then setCompleted checked st else st))
            (subtasks task)).
Proof.
  unfold handleSubtaskCheck. simpl.
  destruct (nonEmpty (subtasks task)); [|reflexivity].
  now destruct (option_map (forallb completed) _) as [[|]|].
Qed.

Lemma handleSubtaskCheck_status now task subtaskId checked :
  nonEmpty (subtasks task) = true ->
  u_status (updates (handleSubtaskCheck now task subtaskId checked))
  = Some (if forallb completed
               (map (fun st =>
                       if str_eqb (subtask_id st) subtaskId
                       then setCompleted checked st else st)
                    (items (subtasks task)))
          then Completed else Current)
  /\ u_completedAt (updates (handleSubtaskCheck now task subtaskId checked))
     = Some (if forallb completed
                  (map (fun st =>
                          if str_eqb (subtask_id st) subtaskId
                          then setCompleted checked st else st)
                       (items (subtasks task)))
             then Some now else None).
Proof.
  intros Hne. unfold handleSubtaskCheck. simpl. rewrite Hne.
  destruct (subtasks task) as [sts|]; [|discriminate]. simpl.
  now destruct (forallb completed _).
Qed.

(** The replaced list, subtask by subtask. *)
Lemma updatedSubtasks_pointwise (subtaskId : jsstring) (checked : bool)
    (sts : list Subtask) :
  Forall2
    (fun old new =>
       subtask_id new = subtask_id old
       /\ subtask_title new = subtask_title old
       /\ completed new
          = if str_eqb (subtask_id old) subtaskId
            then checked else completed old)
    sts
    (map (fun st =>
            if str_eqb (subtask_id st) subtaskId
            then setCompleted checked st else st)
         sts).
Proof.
  induction sts as [|st sts IH]; [constructor|].
  cbn [map]. constructor; [|exact IH].
  destruct (str_eqb (subtask_id st) subtaskId); auto.
Qed.

(** C7.  For a task with a non-empty subtask list, the update produced by
    setting the check box of one subtask carries the subtasks in their
    order, each with its identifier and title, the flag of every subtask
    with the given identifier being the new state of the check box and
    every other flag being as it was; it sets the status to completed with
    completedAt set exactly when every subtask of the replaced list is
    completed, and otherwise the status to current with completedAt
    cleared; the update depends on the subtasks only, not on the status
    the task had. *)
Theorem C7_subtask_checkbox_recomputes (now : Z) (task : Task)
    (subtaskId : jsstring) (checked : bool) :
  items (subtasks task) <> [] ->
  exists updated : list Subtask,
    u_subtasks (updates (handleSubtaskCheck now task subtaskId checked))
    = Some (Some updated)
    /\ Forall2
         (fun old new =>
            subtask_id new = subtask_id old
            /\ subtask_title new = subtask_title old
            /\ completed new
               = if str_eqb (subtask_id old) subtaskId
                 then checked else completed old)
         (items (subtasks task)) updated
    /\ updated
       = map (fun st =>
                if str_eqb (subtask_id st) subtaskId
                then setCompleted checked st else st)
             (items (subtasks task))
    /\ target (handleSubtaskCheck now task subtaskId checked) = task_id task
    /\ (Forall (fun st => completed st = true) updated ->
        u_status (updates (handleSubtaskCheck now task subtaskId checked))
        = Some Completed
        /\ u_completedAt
             (updates (handleSubtaskCheck now task subtaskId checked))
           = Some (Some now))
    /\ (~ Forall (fun st => completed st = true) updated ->
        u_status (updates (handleSubtaskCheck now task subtaskId checked))
        = Some Current
        /\ u_completedAt
             (updates (handleSubtaskCheck now task subtaskId checked))
           = Some None)
    /\ (forall other,
          subtasks other = subtasks task ->
          updates (handleSubtaskCheck now other subtaskId checked)
          = updates (handleSubtaskCheck now task subtaskId checked)).
Proof.
  intros Hne.
  exists (map (fun st =>
                 if str_eqb (subtask_id st) subtaskId
                 then setCompleted checked st else st)
              (items (subtasks task))).
  split.
  { rewrite handleSubtaskCheck_subtasks.
    destruct (subtasks task); [reflexivity|]. now elim Hne. }
  split; [apply updatedSubtasks_pointwise|].
  split; [reflexivity|].
  split; [reflexivity|].
  apply nonEmpty_items in Hne.
  destruct (handleSubtaskCheck_status now task subtaskId checked Hne)
    as [Hs Hc].
  rewrite Hs, Hc.
  destruct (forallb completed _) eqn:Eall.
  - split; [auto|]. split.
    + intros Hn. exfalso. apply Hn.
      apply Forall_forall. now apply forallb_forall.
    + intros other Ho. unfold handleSubtaskCheck. simpl. now rewrite Ho.
  - split.
    + intros Hall. rewrite Forall_forall in Hall.
      rewrite <- forallb_forall in Hall. congruence.
    + split; [auto|].
      intros other Ho. unfold handleSubtaskCheck. simpl. now rewrite Ho.
Qed.

(** *** The two string renderings *)




Section RenderingFacts.
Variable toFixed0 : Double.double -> jsstring.
Variable longDate : jsstring -> jsstring.




End RenderingFacts.

(** *** The PDF file name *)

Lemma replaceSeparators_word (w s : jsstring) :
  isWord w ->
  replaceSeparators false (w ++ s) = w ++ replaceSeparators false s.
Proof.
  induction 1 as [|c w Hc _ IH]; simpl; [reflexivity|].
  now rewrite Hc, IH.
Qed.

Lemma replaceSeparators_word_after_run (w s : jsstring) :
  isWord w -> w <> [] ->
  replaceSeparators true (w ++ s) = w ++ replaceSeparators false s.
Proof.
  intros Hw Hne. destruct Hw as [|c w Hc Hw]; [congruence|].
  simpl. rewrite Hc. f_equal. now apply replaceSeparators_word.
Qed.

Lemma replaceSeparators_in_run (r s : jsstring) :
  Forall (fun c => isSeparator c = true) r ->
  replaceSeparators true (r ++ s) = replaceSeparators true s.
Proof.
  induction 1 as [|c r Hc _ IH]; simpl; [reflexivity|].
  now rewrite Hc.
Qed.

Lemma replaceSeparators_run (r s : jsstring) :
  isRun r ->
  replaceSeparators false (r ++ s) = hyphen :: replaceSeparators true s.
Proof.
  intros [Hne Hr]. destruct Hr as [|c r Hc Hr]; [congruence|].
  simpl. rewrite Hc. f_equal. now apply replaceSeparators_in_run.
Qed.

Lemma replaceSeparators_runs (rest : list (jsstring * jsstring)) :
  runsMaximal rest ->
  replaceSeparators false (flat_map (fun rw => fst rw ++ snd rw) rest)
  = flat_map (fun rw => hyphen :: snd rw) rest.
Proof.
  induction rest as [|[r w] more IH]; [reflexivity|].
  intros [Hr [Hw [Hmax Hmore]]]. cbn [flat_map fst snd].
  rewrite <- app_assoc, replaceSeparators_run by exact Hr.
  destruct w as [|c w].
  - destruct more as [|rw more]; [reflexivity|].
    exfalso. now apply Hmax.
  - rewrite replaceSeparators_word_after_run by (auto; discriminate).
    rewrite IH by exact Hmore. reflexivity.
Qed.

Lemma replaceSeparators_interleave w0 rest :
  isWord w0 -> runsMaximal rest ->
  replaceSeparators false (interleave w0 rest) = hyphenated w0 rest.
Proof.
  intros Hw Hrest. unfold interleave, hyphenated.
  now rewrite replaceSeparators_word, replaceSeparators_runs.
Qed.

(** Every text is an alternation of words and maximal separator runs. *)
Lemma interleave_exists (s : jsstring) :
  exists w0 rest, s = interleave w0 rest /\ isWord w0 /\ runsMaximal rest.
Proof.
  induction s as [|c s [w0 [rest [Hs [Hw Hrest]]]]].
  - exists [], []. repeat split. constructor.
  - destruct (isSeparator c) eqn:Hc.
    + destruct w0 as [|c0 w0].
      * destruct rest as [|[r w] more].
        -- exists [], [([c], [])]. subst s.
           repeat split; try constructor; auto; try discriminate.
        -- exists [], ((c :: r, w) :: more). subst s.
           destruct Hrest as [[Hne Hr] [Hw' [Hmax Hmore]]].
           repeat split; auto; try discriminate; try (now constructor).
      * exists [], (([c], c0 :: w0) :: rest). subst s.
        repeat split; auto; try discriminate; repeat constructor; auto.
    + exists (c :: w0), rest. subst s.
      repeat split; auto; try (now constructor).
Qed.

(** C9.  The PDF is saved as KEPH-Report-X.pdf, where X is the date key
    when there is a non-empty one, and otherwise the formatted date label
    with every maximal run of white space and commas replaced by one
    hyphen. *)
Theorem C9_pdf_file_name (dateKey : option jsstring) (formattedDate : jsstring) :
  (forall key,
      dateKey = Some key -> key <> [] ->
      pdfFileName dateKey formattedDate
      = js "KEPH-Report-" ++ key ++ js ".pdf")
  /\ (dateKey = None \/ dateKey = Some [] ->
      exists w0 rest,
        formattedDate = interleave w0 rest
        /\ isWord w0 /\ runsMaximal rest
        /\ pdfFileName dateKey formattedDate
           = js "KEPH-Report-" ++ hyphenated w0 rest ++ js ".pdf")
  /\ (forall w0 rest,
        isWord w0 -> runsMaximal rest ->
        formattedDate = interleave w0 rest ->
        pdfFileName None formattedDate
        = js "KEPH-Report-" ++ hyphenated w0 rest ++ js ".pdf").
Proof.
  split; [|split].
  - intros key -> Hne. unfold pdfFileName.
    destruct key; [congruence|reflexivity].
  - intros Hkey.
    destruct (interleave_exists formattedDate) as [w0 [rest [Hs [Hw Hrest]]]].
    exists w0, rest. repeat split; auto.
    unfold pdfFileName.
    replace (truthy dateKey) with false by (destruct Hkey; subst; reflexivity).
    now rewrite Hs, replaceSeparators_interleave.
  - intros w0 rest Hw Hrest ->. unfold pdfFileName. cbn [truthy].
    now rewrite replaceSeparators_interleave.
Qed.

(** *** Worked examples *)

(** The tab counts of the example collection: 3 current, 1 completed,
    1 pending, each the length of the filtered list of its tab. *)
Lemma C3_tab_membership_example :
  getCount Samples.utcDay Samples.juneFirstMorning Current Samples.fiveTasks = 3
  /\ getCount Samples.utcDay Samples.juneFirstMorning Completed
       Samples.fiveTasks = 1
  /\ getCount Samples.utcDay Samples.juneFirstMorning Pending
       Samples.fiveTasks = 1
  /\ filteredTasks Samples.utcDay Samples.juneFirstMorning Current
       Samples.fiveTasks
     = [Samples.cur1; Samples.cur2; Samples.doneToday].
Proof.
  split; [|split; [|split]].
  - rewrite (proj2 (proj2 (C3_tab_membership Samples.utcDay
               Samples.juneFirstMorning Samples.fiveTasks Current))).
    reflexivity.
  - rewrite (proj2 (proj2 (C3_tab_membership Samples.utcDay
               Samples.juneFirstMorning Samples.fiveTasks Completed))).
    reflexivity.
  - rewrite (proj2 (proj2 (C3_tab_membership Samples.utcDay
               Samples.juneFirstMorning Samples.fiveTasks Pending))).
    reflexivity.
  - reflexivity.
Defined.

(** The current tab of the example collection has three groups: tomorrow,
    today, and the tasks without a due date. *)
Lemma C4_date_groups_partition_example :
  map fst
      (dateGroups Samples.utcDay Current
         [Samples.cur2; Samples.doneToday; Samples.cur1])
  = [Day 19876; Day 19875; NoDate]
  /\ StronglySorted keyBefore
       (map fst
            (dateGroups Samples.utcDay Current
               [Samples.cur2; Samples.doneToday; Samples.cur1]))
  /\ Permutation
       (concat
          (map snd
               (dateGroups Samples.utcDay Current
                  [Samples.cur2; Samples.doneToday; Samples.cur1])))
       [Samples.cur2; Samples.doneToday; Samples.cur1].
Proof.
  split; [reflexivity|]. split.
  - exact (proj2 (proj2 (proj2 (proj2 (proj2
             (C4_date_groups_partition Samples.utcDay Current
                [Samples.cur2; Samples.doneToday; Samples.cur1])))))).
  - exact (proj1 (proj2 (proj2 (proj2 (proj2
             (C4_date_groups_partition Samples.utcDay Current
                [Samples.cur2; Samples.doneToday; Samples.cur1])))))).
Defined.

(** Three completed tasks are displayed latest first, and a list of
    current tasks with the dated ones first. *)
Lemma C5_order_within_group_example :
  timestampsComparable Completed
    [Samples.doneYesterday; Samples.doneToday; Samples.taskA]
  /\ sortTasks Completed
       [Samples.doneYesterday; Samples.doneToday; Samples.taskA]
     = [Samples.doneToday; Samples.doneYesterday; Samples.taskA]
  /\ StronglySorted (taskBefore Completed)
       (sortTasks Completed
          [Samples.doneYesterday; Samples.doneToday; Samples.taskA])
  /\ sortTasks Current [Samples.cur2; Samples.doneToday; Samples.cur1]
     = [Samples.doneToday; Samples.cur1; Samples.cur2].
Proof.
  assert (H : timestampsComparable Completed
                [Samples.doneYesterday; Samples.doneToday; Samples.taskA]).
  { left. simpl. intros t [<-|[<-|[<-|[]]]]; discriminate. }
  split; [exact H|]. split; [reflexivity|]. split; [|reflexivity].
  exact (proj2 (proj1 (C5_order_within_group Samples.utcDay
                         Samples.juneFirstMorning Completed) _ H)).
Defined.

(** Checking the box of the example task with two subtasks. *)
Lemma C6_primary_checkbox_cascade_example :
  items (subtasks Samples.taskB) <> []
  /\ u_subtasks (updates (handleCheck 7000 Samples.taskB true))
     = Some (Some [mkSubtask (js "b1") (js "first") true;
                   mkSubtask (js "b2") (js "second") true])
  /\ u_status (updates (handleCheck 7000 Samples.taskB true)) = Some Completed
  /\ u_completedAt (updates (handleCheck 7000 Samples.taskB false)) = Some None.
Proof.
  assert (H : items (subtasks Samples.taskB) <> []) by discriminate.
  split; [exact H|]. split; [|split].
  - exact (proj1 (C6_primary_checkbox_cascade 7000 Samples.taskB true H)).
  - exact (proj1 (proj2 (proj2 (proj2 (proj2
             (C6_primary_checkbox_cascade 7000 Samples.taskB true H)))))).
  - exact (proj1 (proj2 (proj2 (proj2 (proj2 (proj2
             (C6_primary_checkbox_cascade 7000 Samples.taskB false H))))))).
Defined.

(** Checking the last open subtask of the example task completes it:
    the update carries both subtasks checked. *)
Lemma C7_subtask_checkbox_recomputes_example :
  items (subtasks Samples.taskB) <> []
  /\ u_subtasks
       (updates (handleSubtaskCheck 7000 Samples.taskB (js "b2") true))
     = Some (Some [mkSubtask (js "b1") (js "first") true;
                   mkSubtask (js "b2") (js "second") true])
  /\ u_status
       (updates (handleSubtaskCheck 7000 Samples.taskB (js "b2") true))
     = Some Completed
  /\ u_completedAt
       (updates (handleSubtaskCheck 7000 Samples.taskB (js "b2") true))
     = Some (Some 7000%Z).
Proof.
  assert (Hne : items (subtasks Samples.taskB) <> []) by discriminate.
  split; [exact Hne|].
  destruct (C7_subtask_checkbox_recomputes 7000 Samples.taskB (js "b2") true
              Hne) as (updated & Hsub & _ & Hupd & _ & Hall & _).
  assert (Hlist : updated = [mkSubtask (js "b1") (js "first") true;
                             mkSubtask (js "b2") (js "second") true]).
  { rewrite Hupd. reflexivity. }
  split; [now rewrite Hsub, Hlist|].
  apply Hall. rewrite Hlist. repeat constructor.
Defined.

(** The file names of a report with and without a date key. *)
Lemma C9_pdf_file_name_example :
  pdfFileName (Some (js "2024-06-01")) Samples.juneLabel
  = js "KEPH-Report-2024-06-01.pdf"
  /\ pdfFileName None Samples.juneLabel = js "KEPH-Report-June-1-2024.pdf".
Proof.
  split.
  - apply (proj1 (C9_pdf_file_name (Some (js "2024-06-01")) Samples.juneLabel)
             (js "2024-06-01")); [reflexivity|discriminate].
  - apply (proj2 (proj2 (C9_pdf_file_name None Samples.juneLabel))
             (js "June") [(js " ", js "1"); (js ", ", js "2024")]).
    + repeat constructor.
    + simpl. repeat split; try discriminate; repeat constructor.
    + reflexivity.
Defined.

(** A completed task without a completion time in the example
    collection. *)
Lemma C10_completed_undated_example :
  status Samples.doneUndated = Completed
  /\ completedAt Samples.doneUndated = None
  /\ ~ tabMember Samples.utcDay Samples.juneFirstMorning Completed
         Samples.doneUndated
  /\ (forall tasks,
        ~ In Samples.doneUndated
             (filteredTasks Samples.utcDay Samples.juneFirstMorning Completed
                tasks))
  /\ (forall before after,
        getCount Samples.utcDay Samples.juneFirstMorning Completed
          (before ++ Samples.doneUndated :: after)
        = getCount Samples.utcDay Samples.juneFirstMorning Completed
            (before ++ after)).
Proof.
  split; [reflexivity|]. split; [reflexivity|].
  exact (C10_completed_undated_in_no_tab Samples.utcDay
           Samples.juneFirstMorning Samples.doneUndated eq_refl eq_refl
           Completed).
Defined.


(* ================================================================== *)
(** ** Further properties of the report statistics *)
(* ================================================================== *)

Lemma subtaskCounters_from (tasks : list Task) (acc : nat * nat) :
  fold_left
    (fun acc task =>
       if nonEmpty (subtasks task)
       then (fst acc + length (items (subtasks task)),
             snd acc + length (filter completed (items (subtasks task))))
       else acc)
    tasks acc
  = (fst acc + list_sum (map TaskCard.totalSubtasks tasks),
     snd acc + list_sum (map TaskCard.completedSubtasks tasks)).
Proof.
  revert acc; induction tasks as [|t tasks IH]; intros [n m]; simpl.
  - f_equal; lia.
  - rewrite IH. unfold TaskCard.totalSubtasks, TaskCard.completedSubtasks.
    destruct (subtasks t) as [[|st sts]|]; simpl; f_equal; lia.
Qed.

Lemma totalSubtasks_sum (tasks : list Task) :
  totalSubtasks tasks = list_sum (map TaskCard.totalSubtasks tasks).
Proof.
  unfold totalSubtasks, subtaskCounters. now rewrite subtaskCounters_from.
Qed.

Lemma completedSubtasks_sum (tasks : list Task) :
  completedSubtasks tasks = list_sum (map TaskCard.completedSubtasks tasks).
Proof.
  unfold completedSubtasks, subtaskCounters. now rewrite subtaskCounters_from.
Qed.

Lemma list_sum_le {A} (f g : A -> nat) (l : list A) :
  (forall x, In x l -> f x <= g x) ->
  list_sum (map f l) <= list_sum (map g l).
Proof.
  induction l as [|x l IH]; simpl; intros H; [lia|].
  pose proof (H x (or_introl eq_refl)).
  assert (list_sum (map f l) <= list_sum (map g l)) by (apply IH; auto).
  lia.
Qed.

Lemma list_sum_eq_pointwise {A} (f g : A -> nat) (l : list A) :
  (forall x, In x l -> f x <= g x) ->
  list_sum (map f l) = list_sum (map g l) ->
  forall x, In x l -> f x = g x.
Proof.
  induction l as [|a l IH]; simpl; intros Hle Hsum x Hx; [tauto|].
  pose proof (Hle a (or_introl eq_refl)).
  assert (list_sum (map f l) <= list_sum (map g l))
    by (apply list_sum_le; auto).
  destruct Hx as [<-|Hx]; [lia|].
  apply IH; auto. lia.
Qed.

Lemma completedUnitsOf_le (t : Task) : completedUnitsOf t <= unitsOf t.
Proof.
  unfold completedUnitsOf, unitsOf.
  destruct (items (subtasks t)) as [|st sts].
  - destruct (status t); simpl; lia.
  - pose proof (filter_length_le completed (st :: sts)). lia.
Qed.

Lemma completedUnitsOf_full (t : Task) :
  completedUnitsOf t = unitsOf t <-> isAccomplished t = true.
Proof.
  unfold completedUnitsOf, unitsOf, isAccomplished.
  destruct (subtasks t) as [[|st sts]|]; cbn [items nonEmpty].
  - destruct (status t); simpl; split; (reflexivity || discriminate).
  - assert (Hmax : Nat.max 1 (length (st :: sts)) = length (st :: sts))
      by (simpl; lia).
    rewrite Hmax. split.
    + intros H. now apply filter_length_forallb.
    + intros H. rewrite forallb_forall in H.
      now rewrite filter_all by (apply Forall_forall; exact H).
  - destruct (status t); simpl; split; (reflexivity || discriminate).
Qed.

(** X1.  The counters of the statistics block never exceed their totals:
    the completed tasks the tasks, the checked subtasks the subtasks, and
    the numerator of the completion rate its denominator. *)
Theorem X1_statistics_bounds (tasks : list Task) :
  completedTasksCount tasks <= totalTasks tasks
  /\ completedSubtasks tasks <= totalSubtasks tasks
  /\ completedItemsForCompletion tasks <= itemsForCompletion tasks.
Proof.
  split; [apply filter_length_le|].
  split.
  { rewrite completedSubtasks_sum, totalSubtasks_sum.
    apply list_sum_le. intros t _. apply filter_length_le. }
  rewrite completedItemsForCompletion_sum, itemsForCompletion_sum.
  apply list_sum_le. intros t _. apply completedUnitsOf_le.
Qed.

Lemma list_sum_split {A} (f g : A -> nat) (p : A -> bool) (l : list A) :
  (forall x, f x = g x + if p x then 1 else 0) ->
  list_sum (map f l) = list_sum (map g l) + length (filter p l).
Proof.
  intros H. induction l as [|x l IH]; [reflexivity|].
  simpl. rewrite IH, H. destruct (p x); simpl; lia.
Qed.

(** X2.  The completion units are the subtasks plus the tasks without
    subtasks: the denominator of the rate is the number of subtasks plus
    the number of tasks without subtasks, and the numerator is the number
    of checked subtasks plus the number of completed tasks without
    subtasks. *)
Theorem X2_completion_units (tasks : list Task) :
  itemsForCompletion tasks
  = totalSubtasks tasks
    + length (filter (fun t => negb (nonEmpty (subtasks t))) tasks)
  /\ completedItemsForCompletion tasks
     = completedSubtasks tasks
       + length (filter (fun t => negb (nonEmpty (subtasks t))
                                  && status_eqb (status t) Completed)
                        tasks).
Proof.
  rewrite itemsForCompletion_sum, completedItemsForCompletion_sum,
    totalSubtasks_sum, completedSubtasks_sum.
  split; apply list_sum_split; intros t;
    unfold unitsOf, completedUnitsOf, TaskCard.totalSubtasks,
      TaskCard.completedSubtasks;
    destruct (subtasks t) as [[|st sts]|]; cbn [items nonEmpty negb andb];
    destruct (status t); simpl; lia.
Qed.

Lemma all_accomplished_count (tasks : list Task) :
  forallb isAccomplished tasks = true
  <-> completedTasksCount tasks = totalTasks tasks.
Proof.
  unfold completedTasksCount, completedTasksList, totalTasks. split.
  - intros H. rewrite forallb_forall in H.
    now rewrite filter_all by (apply Forall_forall; exact H).
  - apply filter_length_forallb.
Qed.

Lemma all_accomplished_units (tasks : list Task) :
  forallb isAccomplished tasks = true
  <-> completedItemsForCompletion tasks = itemsForCompletion tasks.
Proof.
  rewrite completedItemsForCompletion_sum, itemsForCompletion_sum,
    forallb_forall.
  split.
  - intros H. f_equal. apply map_ext_in. intros t Ht.
    now apply completedUnitsOf_full, H.
  - intros H t Ht. apply completedUnitsOf_full.
    revert t Ht. apply list_sum_eq_pointwise; [|exact H].
    intros x _. apply completedUnitsOf_le.
Qed.

Lemma no_outstanding_when_all_accomplished (tasks : list Task) :
  forallb isAccomplished tasks = true -> incompleteTasksList tasks = [].
Proof.
  intros H. rewrite forallb_forall in H.
  unfold incompleteTasksList.
  assert (Hnone :
    forall t, In t tasks ->
      negb (existsb (fun ct => str_eqb (task_id ct) (task_id t))
                    (completedTasksList tasks)) = false).
  { intros t Ht. apply negb_false_iff, existsb_exists.
    exists t. split; [|apply str_eqb_refl].
    unfold completedTasksList. apply filter_In. auto. }
  revert Hnone. generalize (completedTasksList tasks). intros done Hnone.
  induction tasks as [|t l IH]; [reflexivity|].
  cbn [filter]. rewrite Hnone by now left.
  apply IH; intros; [apply H|apply Hnone]; now right.
Qed.

(** X3.  For a group with tasks, every completion unit is complete
    exactly when every task of the group is accomplished, that is when the
    count of completed tasks equals the count of tasks; then the report has
    no outstanding item and (for fewer than 2^53 units, which the counters
    of the source hold exactly) the completion rate is exactly 100; and
    when no completion unit is complete the rate is exactly 0. *)
Theorem X3_full_and_null_rate (tasks : list Task) :
  tasks <> [] ->
  (completedItemsForCompletion tasks = itemsForCompletion tasks
   <-> completedTasksCount tasks = totalTasks tasks)
  /\ (completedTasksCount tasks = totalTasks tasks ->
      incompleteTasksList tasks = [])
  /\ (completedTasksCount tasks = totalTasks tasks ->
      (Z.of_nat (itemsForCompletion tasks) < 2 ^ 53)%Z ->
      completionRate tasks = Double.hundred)
  /\ (completedItemsForCompletion tasks = 0 ->
      (Z.of_nat (itemsForCompletion tasks) < 2 ^ 53)%Z ->
      completionRate tasks = Double.zero).
Proof.
  intros Hne.
  assert (Hpos : 0 < itemsForCompletion tasks).
  { destruct (itemsForCompletion tasks) eqn:E; [|lia].
    apply itemsForCompletion_zero in E. contradiction. }
  split; [now rewrite <- all_accomplished_units, all_accomplished_count|].
  split.
  { intros H. now apply no_outstanding_when_all_accomplished,
                all_accomplished_count. }
  split.
  - intros H Hsafe. rewrite completionRate_double by lia.
    apply all_accomplished_count, all_accomplished_units in H.
    rewrite H. now apply full_rate.
  - intros H Hsafe. rewrite completionRate_double by lia.
    rewrite H. now apply null_rate.
Qed.

(** A group whose only task is complete, and one whose only task is
    pending. *)
Lemma X3_full_and_null_rate_example :
  [Samples.taskA] <> []
  /\ completedTasksCount [Samples.taskA] = totalTasks [Samples.taskA]
  /\ (Z.of_nat (itemsForCompletion [Samples.taskA]) < 2 ^ 53)%Z
  /\ incompleteTasksList [Samples.taskA] = []
  /\ completionRate [Samples.taskA] = Double.hundred
  /\ [Samples.taskC] <> []
  /\ completedItemsForCompletion [Samples.taskC] = 0
  /\ (Z.of_nat (itemsForCompletion [Samples.taskC]) < 2 ^ 53)%Z
  /\ completionRate [Samples.taskC] = Double.zero.
Proof.
  assert (HneA : [Samples.taskA] <> []) by discriminate.
  assert (HneC : [Samples.taskC] <> []) by discriminate.
  destruct (X3_full_and_null_rate [Samples.taskA] HneA)
    as (_ & Hout & Hfull & _).
  destruct (X3_full_and_null_rate [Samples.taskC] HneC)
    as (_ & _ & _ & Hnull).
  split; [exact HneA|]. split; [reflexivity|]. split; [reflexivity|].
  split; [apply Hout; reflexivity|].
  split; [apply Hfull; reflexivity|].
  split; [exact HneC|]. split; [reflexivity|]. split; [reflexivity|].
  apply Hnull; reflexivity.
Defined.

Lemma nothing_accomplished (tasks : list Task) :
  completedTasksList tasks = [] -> incompleteTasksList tasks = tasks.
Proof.
  intros H. unfold incompleteTasksList. rewrite H.
  apply filter_all, Forall_forall. intros t _. reflexivity.
Qed.

(** X4.  The report shows neither section exactly when the group is
    empty, which is when the notice that no tasks were recorded is shown;
    and when no task is accomplished the outstanding items are the whole
    group in its order. *)
Theorem X4_sections_and_notice (tasks : list Task) :
  (completedTasksList tasks = [] /\ incompleteTasksList tasks = []
   <-> tasks = [])
  /\ (completedTasksList tasks = [] -> incompleteTasksList tasks = tasks)
  /\ length (completedTasksList tasks) + length (incompleteTasksList tasks)
     <= length tasks.
Proof.
  split; [|split; [apply nothing_accomplished|]].
  - split; [|now intros ->].
    intros [Hc Hi]. now rewrite nothing_accomplished in Hi.
  - assert (Hsub : length (incompleteTasksList tasks)
                   <= length (filter (fun t => negb (isAccomplished t)) tasks)).
    { unfold incompleteTasksList.
      generalize (completedTasksList_In tasks).
      generalize (completedTasksList tasks). intros done Hdone.
      assert (Hin : forall t, In t tasks -> isAccomplished t = true ->
                existsb (fun ct => str_eqb (task_id ct) (task_id t)) done
                = true).
      { intros t Ht Hacc. apply existsb_exists. exists t.
        split; [|apply str_eqb_refl].
        apply Hdone. split; [exact Ht|now apply isAccomplished_spec]. }
      clear Hdone. induction tasks as [|t l IH]; [simpl; lia|].
      assert (IH' := IH (fun x Hx => Hin x (or_intror Hx))).
      cbn [filter]. destruct (isAccomplished t) eqn:E.
      - rewrite Hin by (auto; now left). simpl. exact IH'.
      - destruct (negb (existsb _ done)); simpl; lia. }
    pose proof (filter_length isAccomplished tasks).
    unfold completedTasksList at 1. lia.
Qed.

(* ================================================================== *)
(** ** Further properties of the file name *)
(* ================================================================== *)

Lemma replaceSeparators_isWord (inMatch : bool) (s : jsstring) :
  isWord (replaceSeparators inMatch s).
Proof.
  revert inMatch; induction s as [|c s IH]; intros inMatch; simpl.
  - constructor.
  - destruct (isSeparator c) eqn:Hc.
    + destruct inMatch; [apply IH|]. constructor; [reflexivity|apply IH].
    + constructor; [exact Hc|apply IH].
Qed.

Lemma replaceSeparators_fixed (s : jsstring) :
  isWord s -> replaceSeparators false s = s.
Proof.
  intros Hs. rewrite <- (app_nil_r s) at 1.
  rewrite replaceSeparators_word by exact Hs. simpl. apply app_nil_r.
Qed.

Lemma replaceSeparators_length (inMatch : bool) (s : jsstring) :
  length (replaceSeparators inMatch s) <= length s.
Proof.
  revert inMatch; induction s as [|c s IH]; intros inMatch; simpl; [lia|].
  destruct (isSeparator c); [destruct inMatch|]; simpl;
    try (pose proof (IH true)); try (pose proof (IH false)); lia.
Qed.

(** X5.  The label part of a file name built without a date key holds no
    white space and no comma; replacing the separators again changes
    nothing; a label without separators is kept as it is; and the result
    is never longer than the label. *)
Theorem X5_sanitised_label (formattedDate : jsstring) :
  Forall (fun c => isSeparator c = false)
         (replaceSeparators false formattedDate)
  /\ replaceSeparators false (replaceSeparators false formattedDate)
     = replaceSeparators false formattedDate
  /\ (Forall (fun c => isSeparator c = false) formattedDate ->
      pdfFileName None formattedDate
      = js "KEPH-Report-" ++ formattedDate ++ js ".pdf")
  /\ length (replaceSeparators false formattedDate) <= length formattedDate.
Proof.
  split; [apply replaceSeparators_isWord|].
  split; [apply replaceSeparators_fixed, replaceSeparators_isWord|].
  split; [|apply replaceSeparators_length].
  intros H. unfold pdfFileName. cbn [truthy].
  now rewrite replaceSeparators_fixed.
Qed.

(* ================================================================== *)
(** ** Further properties of the task card *)
(* ================================================================== *)

(** X6.  The progress bar of a task is 0 for a task without subtasks; for
    a task with subtasks it is the completion rate the report computes for
    that task alone, exactly 100 when all the subtasks are completed and
    exactly 0 when none is (for fewer than 2^53 subtasks); the count shown
    beside the bar never exceeds the total. *)
Theorem X6_progress_bar (task : Task) :
  (nonEmpty (subtasks task) = false -> TaskCard.progress task = Double.zero)
  /\ (nonEmpty (subtasks task) = true ->
      TaskCard.progress task = completionRate [task])
  /\ (nonEmpty (subtasks task) = true -> isAccomplished task = true ->
      (Z.of_nat (TaskCard.totalSubtasks task) < 2 ^ 53)%Z ->
      TaskCard.progress task = Double.hundred)
  /\ (nonEmpty (subtasks task) = true ->
      TaskCard.completedSubtasks task = 0 ->
      (Z.of_nat (TaskCard.totalSubtasks task) < 2 ^ 53)%Z ->
      TaskCard.progress task = Double.zero)
  /\ TaskCard.completedSubtasks task <= TaskCard.totalSubtasks task.
Proof.
  assert (Hrate : nonEmpty (subtasks task) = true ->
                  TaskCard.progress task = completionRate [task]).
  { intros H. unfold completionRate, itemsForCompletion,
      completedItemsForCompletion, completionCounters, completionStep.
    simpl. now rewrite H. }
  assert (Hle : TaskCard.completedSubtasks task
                <= TaskCard.totalSubtasks task) by apply filter_length_le.
  revert Hrate Hle. generalize (completionRate [task]). intros rate Hrate Hle.
  unfold TaskCard.progress, isAccomplished in *.
  unfold TaskCard.totalSubtasks, TaskCard.completedSubtasks in *.
  destruct (subtasks task) as [[|st sts]|]; cbn [items nonEmpty] in *.
  1, 3: (split; [reflexivity|]; split; [discriminate|];
         split; [discriminate|]; split; [discriminate|exact Hle]).
  assert (Hpos : 0 < length (st :: sts)) by (simpl; lia).
  destruct (Nat.ltb_spec 0 (length (st :: sts))) as [_|]; [|lia].
  split; [discriminate|].
  split; [exact Hrate|].
  split.
  { intros _ H Hsafe. rewrite forallb_forall in H.
    rewrite filter_all by (apply Forall_forall; exact H).
    now apply full_rate. }
  split; [|exact Hle].
  intros _ H Hsafe. rewrite H. now apply null_rate.
Qed.

(** The example task has one of its two subtasks checked: the bar is at
    50; with both checked it is at 100. *)
Lemma X6_progress_bar_example :
  TaskCard.progress Samples.taskB = Double.ofZ 50
  /\ nonEmpty (subtasks Samples.taskB) = true
  /\ TaskCard.progress Samples.taskB = completionRate [Samples.taskB]
  /\ TaskCard.progress
       (applyUpdates Samples.taskB
          (updates (handleCheck 7000 Samples.taskB true)))
     = Double.hundred.
Proof.
  split; [reflexivity|]. split; [reflexivity|].
  split.
  - exact (proj1 (proj2 (X6_progress_bar Samples.taskB)) eq_refl).
  - apply (proj1 (proj2 (proj2 (X6_progress_bar _)))); reflexivity.
Defined.

(** X7.  Every update a check box or a menu entry sends keeps the
    completion time in step with the status: after [handleCheck] and after
    [handleUpdateStatus] the task has a completion time exactly when its
    status is completed; after [handleSubtaskCheck] the same holds when the
    task has subtasks, and otherwise the update leaves status and
    completion time as they were. *)
Theorem X7_completion_time_follows_status (now : Z) (task : Task) :
  (forall checked,
      TaskCard.datedIffCompleted
        (applyUpdates task (updates (handleCheck now task checked))))
  /\ (forall s,
        TaskCard.datedIffCompleted
          (applyUpdates task (updates (handleUpdateStatus now task s))))
  /\ (forall subtaskId checked,
        nonEmpty (subtasks task) = true ->
        TaskCard.datedIffCompleted
          (applyUpdates task
             (updates (handleSubtaskCheck now task subtaskId checked))))
  /\ (forall subtaskId checked,
        nonEmpty (subtasks task) = false ->
        status (applyUpdates task
                  (updates (handleSubtaskCheck now task subtaskId checked)))
        = status task
        /\ completedAt
             (applyUpdates task
                (updates (handleSubtaskCheck now task subtaskId checked)))
           = completedAt task).
Proof.
  unfold TaskCard.datedIffCompleted.
  split; [|split; [|split]].
  - intros checked. unfold handleCheck, applyUpdates.
    destruct (nonEmpty (subtasks task)), checked; simpl;
      split; congruence.
  - intros s. unfold handleUpdateStatus, applyUpdates.
    destruct s; simpl; split; congruence.
  - intros subtaskId checked Hne.
    destruct (handleSubtaskCheck_status now task subtaskId checked Hne)
      as [Hs Hc].
    unfold applyUpdates. cbn [status completedAt]. rewrite Hs, Hc.
    destruct (forallb completed _); split; congruence.
  - intros subtaskId checked Hne.
    unfold handleSubtaskCheck, applyUpdates. rewrite Hne. simpl. auto.
Qed.

Lemma forallb_setCompleted (v : bool) (st : Subtask) (sts : list Subtask) :
  forallb completed (map (setCompleted v) (st :: sts)) = v.
Proof.
  destruct v; simpl; [|reflexivity].
  induction sts as [|x sts IH]; simpl; auto.
Qed.

(** X8.  After the primary check box is set to [checked] the report
    counts the task as accomplished exactly when [checked] is true,
    whether the task has subtasks or not. *)
Theorem X8_check_box_decides_accomplished (now : Z) (task : Task)
    (checked : bool) :
  isAccomplished (applyUpdates task (updates (handleCheck now task checked)))
  = checked
  /\ status_eqb
       (status (applyUpdates task (updates (handleCheck now task checked))))
       Completed
     = checked.
Proof.
  unfold handleCheck, applyUpdates, isAccomplished.
  destruct (subtasks task) as [[|st sts]|] eqn:E; cbn [nonEmpty items];
    cbn [updates u_status u_subtasks u_completedAt subtasks status];
    rewrite ?E; cbn [nonEmpty items map].
  1, 3: (destruct checked; split; reflexivity).
  split; [|now destruct checked].
  apply (forallb_setCompleted checked st sts).
Qed.

(** X9.  After a subtask check box is set on a task with subtasks, the
    status of the task is completed exactly when the report counts the
    task as accomplished. *)
Theorem X9_subtask_check_keeps_status_in_step (now : Z) (task : Task)
    (subtaskId : jsstring) (checked : bool) :
  nonEmpty (subtasks task) = true ->
  status_eqb
    (status (applyUpdates task
               (updates (handleSubtaskCheck now task subtaskId checked))))
    Completed
  = isAccomplished
      (applyUpdates task
         (updates (handleSubtaskCheck now task subtaskId checked))).
Proof.
  intros Hne.
  destruct (handleSubtaskCheck_status now task subtaskId checked Hne)
    as [Hs _].
  pose proof (handleSubtaskCheck_subtasks now task subtaskId checked) as Hsub.
  unfold applyUpdates, isAccomplished. cbn [status subtasks].
  rewrite Hs, Hsub.
  destruct (subtasks task) as [[|st sts]|]; try discriminate.
  cbn [option_map items nonEmpty map].
  now destruct (forallb completed _).
Qed.

Lemma X9_subtask_check_example :
  nonEmpty (subtasks Samples.taskB) = true
  /\ status_eqb
       (status (applyUpdates Samples.taskB
                  (updates (handleSubtaskCheck 7000 Samples.taskB (js "b2")
                              true))))
       Completed
     = isAccomplished
         (applyUpdates Samples.taskB
            (updates (handleSubtaskCheck 7000 Samples.taskB (js "b2") true))).
Proof.
  split; [reflexivity|].
  now apply (X9_subtask_check_keeps_status_in_step 7000 Samples.taskB
               (js "b2") true).
Defined.

Lemma forallb_incomplete (st : Subtask) (sts : list Subtask) :
  In st sts -> completed st = false -> forallb completed sts = false.
Proof.
  intros Hin Hc. apply not_true_iff_false. rewrite forallb_forall.
  intros H. specialize (H st Hin). congruence.
Qed.

(** X10.  The menu entry [Mark as Completed] does not cascade: it sends no
    subtasks, so on a task with an unchecked subtask the status becomes
    completed and the completion glyph of the report is set, while the
    report does not count the task as accomplished and lists it in no
    group among the accomplishments. *)
Theorem X10_menu_completion_does_not_cascade (now : Z) (task : Task)
    (st : Subtask) :
  In st (items (subtasks task)) -> completed st = false ->
  u_subtasks (updates (handleUpdateStatus now task Completed)) = None
  /\ subtasks
       (applyUpdates task (updates (handleUpdateStatus now task Completed)))
     = subtasks task
  /\ status
       (applyUpdates task (updates (handleUpdateStatus now task Completed)))
     = Completed
  /\ completedAt
       (applyUpdates task (updates (handleUpdateStatus now task Completed)))
     = Some now
  /\ tv_done
       (taskView
          (applyUpdates task
             (updates (handleUpdateStatus now task Completed))))
     = true
  /\ isAccomplished
       (applyUpdates task (updates (handleUpdateStatus now task Completed)))
     = false
  /\ (forall tasks,
        ~ In (applyUpdates task
                (updates (handleUpdateStatus now task Completed)))
             (completedTasksList tasks)).
Proof.
  intros Hin Hc.
  assert (Hacc : isAccomplished
                   (applyUpdates task
                      (updates (handleUpdateStatus now task Completed)))
                 = false).
  { unfold isAccomplished, applyUpdates, handleUpdateStatus.
    cbn [updates u_subtasks u_status subtasks status].
    destruct (subtasks task) as [[|x sts]|]; try contradiction.
    cbn [nonEmpty items]. now apply (forallb_incomplete st). }
  repeat (split; [reflexivity|]).
  split; [exact Hacc|].
  intros tasks H. unfold completedTasksList in H.
  apply filter_In in H. destruct H as [_ H]. congruence.
Qed.

Lemma X10_menu_completion_example :
  In (mkSubtask (js "b2") (js "second") false)
     (items (subtasks Samples.taskB))
  /\ completed (mkSubtask (js "b2") (js "second") false) = false
  /\ status
       (applyUpdates Samples.taskB
          (updates (handleUpdateStatus 7000 Samples.taskB Completed)))
     = Completed
  /\ isAccomplished
       (applyUpdates Samples.taskB
          (updates (handleUpdateStatus 7000 Samples.taskB Completed)))
     = false.
Proof.
  assert (Hin : In (mkSubtask (js "b2") (js "second") false)
                   (items (subtasks Samples.taskB)))
    by (right; left; reflexivity).
  split; [exact Hin|]. split; [reflexivity|].
  pose proof (X10_menu_completion_does_not_cascade 7000 Samples.taskB
                (mkSubtask (js "b2") (js "second") false) Hin eq_refl) as H.
  split; [exact (proj1 (proj2 (proj2 H)))|].
  exact (proj1 (proj2 (proj2 (proj2 (proj2 (proj2 H)))))).
Defined.

(** X11.  A subtask check box event for an identifier that no subtask of
    the task carries sends the subtasks unchanged; on a task with subtasks
    the status is recomputed all the same, so it becomes completed or
    current whatever it was; on a task without subtasks the update holds
    neither a status nor a completion time. *)
Theorem X11_subtask_check_without_match (now : Z) (task : Task)
    (subtaskId : jsstring) (checked : bool) :
  (forall st, In st (items (subtasks task)) -> subtask_id st <> subtaskId) ->
  u_subtasks (updates (handleSubtaskCheck now task subtaskId checked))
  = Some (subtasks task)
  /\ (nonEmpty (subtasks task) = true ->
      u_status (updates (handleSubtaskCheck now task subtaskId checked))
      = Some (if forallb completed (items (subtasks task))
              then Completed else Current))
  /\ (nonEmpty (subtasks task) = false ->
      u_status (updates (handleSubtaskCheck now task subtaskId checked)) = None
      /\ u_completedAt
           (updates (handleSubtaskCheck now task subtaskId checked))
         = None).
Proof.
  intros Hno.
  assert (Hsame :
    map (fun st =>
           if str_eqb (subtask_id st) subtaskId
           then setCompleted checked st else st)
        (items (subtasks task))
    = items (subtasks task)).
  { rewrite <- (map_id (items (subtasks task))) at 2.
    apply map_ext_in. intros st Hst.
    destruct (str_eqb (subtask_id st) subtaskId) eqn:E; [|reflexivity].
    apply str_eqb_eq in E. now apply Hno in Hst. }
  split; [|split].
  - rewrite handleSubtaskCheck_subtasks.
    destruct (subtasks task) as [sts|]; [|reflexivity].
    cbn [option_map items] in *. now rewrite Hsame.
  - intros Hne.
    rewrite (proj1 (handleSubtaskCheck_status now task subtaskId checked Hne)).
    now rewrite Hsame.
  - intros Hne. unfold handleSubtaskCheck. rewrite Hne. now split.
Qed.

Lemma X11_subtask_check_without_match_example :
  (forall st, In st (items (subtasks Samples.taskB)) ->
              subtask_id st <> js "zz")
  /\ u_subtasks (updates (handleSubtaskCheck 7000 Samples.taskB (js "zz") true))
     = Some (subtasks Samples.taskB)
  /\ u_status (updates (handleSubtaskCheck 7000 Samples.taskB (js "zz") true))
     = Some Current.
Proof.
  assert (H : forall st, In st (items (subtasks Samples.taskB)) ->
                         subtask_id st <> js "zz").
  { intros st [<-|[<-|[]]]; discriminate. }
  split; [exact H|].
  pose proof (X11_subtask_check_without_match 7000 Samples.taskB (js "zz")
                true H) as [H1 [H2 _]].
  split; [exact H1|exact (H2 eq_refl)].
Defined.

Lemma setCompleted_own (st : Subtask) : setCompleted (completed st) st = st.
Proof. now destruct st. Qed.

(** X12.  When the subtasks of a task carry distinct identifiers,
    flipping the check box of one subtask and flipping it back restores
    the subtasks of the task. *)
Theorem X12_subtask_check_round_trip (now later : Z) (task : Task)
    (sts : list Subtask) (st : Subtask) :
  subtasks task = Some sts ->
  NoDup (map subtask_id sts) ->
  In st sts ->
  subtasks
    (applyUpdates
       (applyUpdates task
          (updates (handleSubtaskCheck now task (subtask_id st)
                      (negb (completed st)))))
       (updates
          (handleSubtaskCheck later
             (applyUpdates task
                (updates (handleSubtaskCheck now task (subtask_id st)
                            (negb (completed st)))))
             (subtask_id st) (completed st))))
  = Some sts.
Proof.
  intros Hs Hnd Hin.
  unfold applyUpdates at 1. cbn [subtasks].
  rewrite handleSubtaskCheck_subtasks.
  unfold applyUpdates. cbn [subtasks].
  rewrite handleSubtaskCheck_subtasks, Hs. cbn [option_map].
  f_equal. rewrite map_map.
  rewrite <- (map_id sts) at 2. apply map_ext_in. intros x Hx.
  destruct (str_eqb (subtask_id x) (subtask_id st)) eqn:E.
  - apply str_eqb_eq in E.
    assert (x = st) by (eapply NoDup_map_eq; eauto). subst x.
    cbn [setCompleted subtask_id]. rewrite str_eqb_refl.
    now destruct st.
  - now rewrite E.
Qed.

Lemma X12_subtask_check_round_trip_example :
  subtasks Samples.taskB
  = Some [mkSubtask (js "b1") (js "first") true;
          mkSubtask (js "b2") (js "second") false]
  /\ subtasks
       (applyUpdates
          (applyUpdates Samples.taskB
             (updates (handleSubtaskCheck 7000 Samples.taskB (js "b2") true)))
          (updates
             (handleSubtaskCheck 8000
                (applyUpdates Samples.taskB
                   (updates
                      (handleSubtaskCheck 7000 Samples.taskB (js "b2") true)))
                (js "b2") false)))
     = subtasks Samples.taskB.
Proof.
  split; [reflexivity|].
  apply (X12_subtask_check_round_trip 7000 8000 Samples.taskB _
           (mkSubtask (js "b2") (js "second") false) eq_refl).
  - vm_compute. repeat constructor; simpl; intuition discriminate.
  - right; left; reflexivity.
Defined.

(** X13.  On a calendar whose days follow the instants, the due date of a
    task is shown in the warning colour exactly when the task is not
    completed and its due day is before the current day; a completed task
    and a task due today are never shown in it, and a task without a due
    date has no due date line. *)
Theorem X13_overdue_colour (dayOf : Z -> Z) (now : Z) (task : Task) :
  (forall a b, (a <= b)%Z -> (dayOf a <= dayOf b)%Z) ->
  (forall d,
      dueDate task = Some d ->
      TaskCard.dueDateClass dayOf now task
      = Some (if negb (status_eqb (status task) Completed)
                 && (dayOf d <? dayOf now)%Z
              then js "text-destructive" else []))
  /\ (dueDate task = None -> TaskCard.dueDateClass dayOf now task = None).
Proof.
  intros Hmono. split.
  - intros d Hd. unfold TaskCard.dueDateClass, TaskCard.isPast, isToday.
    rewrite Hd. do 2 f_equal. rewrite <- andb_assoc. f_equal.
    destruct (Z.ltb_spec (dayOf d) (dayOf now)) as [Hlt|Hge].
    + destruct (Z.ltb_spec d now) as [_|Hle].
      * destruct (Z.eqb_spec (dayOf d) (dayOf now)); [lia|reflexivity].
      * specialize (Hmono now d Hle). lia.
    + destruct (Z.ltb_spec d now) as [Hlt|_]; [|reflexivity].
      assert (dayOf d <= dayOf now)%Z by (apply Hmono; lia).
      destruct (Z.eqb_spec (dayOf d) (dayOf now)); [reflexivity|lia].
  - intros Hd. unfold TaskCard.dueDateClass. now rewrite Hd.
Qed.

Lemma utcDay_monotone (a b : Z) :
  (a <= b)%Z -> (Samples.utcDay a <= Samples.utcDay b)%Z.
Proof.
  intros H. unfold Samples.utcDay, msPerDay.
  apply Z.div_le_mono; lia.
Qed.

Lemma X13_overdue_colour_example :
  (forall a b, (a <= b)%Z -> (Samples.utcDay a <= Samples.utcDay b)%Z)
  /\ TaskCard.dueDateClass Samples.utcDay
       (Samples.juneFirstMorning + 2 * Samples.aDay) Samples.cur1
     = Some (js "text-destructive")
  /\ TaskCard.dueDateClass Samples.utcDay Samples.juneFirstMorning Samples.cur1
     = Some [].
Proof.
  split; [exact utcDay_monotone|]. split.
  - exact (proj1 (X13_overdue_colour Samples.utcDay
                    (Samples.juneFirstMorning + 2 * Samples.aDay)
                    Samples.cur1 utcDay_monotone) _ eq_refl).
  - exact (proj1 (X13_overdue_colour Samples.utcDay Samples.juneFirstMorning
                    Samples.cur1 utcDay_monotone) _ eq_refl).
Defined.

(* ================================================================== *)
(** ** Further properties of the task list *)
(* ================================================================== *)

Section TabPartition.
Variable dayOf : Z -> Z.
Variable now : Z.

Lemma inTab_unique (a b : TaskStatus) (t : Task) :
  inTab dayOf now a t = true -> inTab dayOf now b t = true -> a = b.
Proof.
  unfold inTab.
  destruct a, b, (status t), (completedAt t) as [d|]; simpl;
    try destruct (isToday dayOf now d); simpl; congruence.
Qed.

(** X14.  No task is in two tabs: the tab predicates exclude each other,
    so filtering the list of one tab for another tab leaves nothing, and
    filtering it for the same tab changes nothing. *)
Theorem X14_tabs_exclude_each_other (a b : TaskStatus) (tasks : list Task) :
  (forall t,
      In t (filteredTasks dayOf now a tasks) ->
      In t (filteredTasks dayOf now b tasks) -> a = b)
  /\ (a <> b ->
      filteredTasks dayOf now a (filteredTasks dayOf now b tasks) = [])
  /\ filteredTasks dayOf now a (filteredTasks dayOf now a tasks)
     = filteredTasks dayOf now a tasks.
Proof.
  unfold filteredTasks. split; [|split].
  - intros t Ha Hb. apply filter_In in Ha, Hb.
    now apply (inTab_unique a b t).
  - intros Hab. induction tasks as [|t l IH]; [reflexivity|].
    cbn [filter]. destruct (inTab dayOf now b t) eqn:Eb; [|exact IH].
    cbn [filter]. destruct (inTab dayOf now a t) eqn:Ea; [|exact IH].
    exfalso. apply Hab. now apply (inTab_unique a b t).
  - apply filter_all, Forall_forall. intros t Ht.
    now apply filter_In in Ht.
Qed.

(** X15.  The three tab counts account for every task of the collection
    except the completed tasks without a completion time: the counts and
    the number of those tasks add up to the size of the collection. *)
Theorem X15_tab_counts_add_up (tasks : list Task) :
  getCount dayOf now Current tasks
  + getCount dayOf now Completed tasks
  + getCount dayOf now Pending tasks
  + length (filter TaskListSummary.completedUndated tasks)
  = length tasks.
Proof.
  rewrite !getCount_inTab.
  induction tasks as [|t l IH]; [reflexivity|].
  cbn [filter length]. rewrite <- IH.
  unfold inTab, TaskListSummary.completedUndated.
  destruct (status t), (completedAt t) as [d|]; simpl;
    try destruct (isToday dayOf now d); simpl; lia.
Qed.
End TabPartition.

Lemma X14_tabs_exclude_each_other_example :
  Current <> Completed
  /\ filteredTasks Samples.utcDay Samples.juneFirstMorning Current
       (filteredTasks Samples.utcDay Samples.juneFirstMorning Completed
          Samples.fiveTasks)
     = [].
Proof.
  split; [discriminate|].
  apply (proj1 (proj2 (X14_tabs_exclude_each_other Samples.utcDay
                         Samples.juneFirstMorning Current Completed
                         Samples.fiveTasks))).
  discriminate.
Defined.

Section TabPlacement.
Variable dayOf : Z -> Z.

(** X16.  A task whose primary check box is set, in either direction,
    is shown in the current tab at that instant; a task checked as done
    moves to the completed tab only once the calendar day has changed.  A
    status chosen from the menu places the task in the tab of that status,
    except that a task marked completed stays in the current tab for the
    rest of the day. *)
Theorem X16_where_an_updated_task_shows (now : Z) (task : Task) :
  (forall checked,
      inTab dayOf now Current
        (applyUpdates task (updates (handleCheck now task checked)))
      = true)
  /\ (forall later,
        inTab dayOf later Completed
          (applyUpdates task (updates (handleCheck now task true)))
        = negb (dayOf now =? dayOf later)%Z)
  /\ (forall s,
        inTab dayOf now
          (match s with Completed => Current | _ => s end)
          (applyUpdates task (updates (handleUpdateStatus now task s)))
        = true).
Proof.
  split; [|split].
  - intros checked. unfold handleCheck, applyUpdates, inTab, isToday.
    destruct (nonEmpty (subtasks task)), checked; simpl;
      rewrite ?Z.eqb_refl; reflexivity.
  - intros later. unfold handleCheck, applyUpdates, inTab, isToday.
    destruct (nonEmpty (subtasks task)); reflexivity.
  - intros s. unfold handleUpdateStatus, applyUpdates, inTab, isToday.
    destruct s; simpl; rewrite ?Z.eqb_refl; reflexivity.
Qed.
End TabPlacement.

(** *** The order of a group, again *)

Lemma notAfter_trans tab (a b c : Task) :
  TaskListSummary.notAfter tab a b -> TaskListSummary.notAfter tab b c ->
  TaskListSummary.notAfter tab a c.
Proof.
  unfold TaskListSummary.notAfter, compareTasks.
  destruct tab; try lia;
    destruct (dueDate a), (dueDate b), (dueDate c); lia.
Qed.

Lemma notAfter_total tab (a b : Task) :
  (0 < compareTasks tab a b)%Z -> TaskListSummary.notAfter tab b a.
Proof.
  unfold TaskListSummary.notAfter, compareTasks.
  destruct tab; try lia; destruct (dueDate a), (dueDate b); lia.
Qed.

Lemma sort_fixed {A} (cmp : A -> A -> Z) (l : list A) :
  StronglySorted (fun x y => (cmp x y <= 0)%Z) l -> JS.sort cmp l = l.
Proof.
  induction 1 as [|x l Hl IH Hx]; [reflexivity|].
  simpl. rewrite IH. destruct l as [|y l']; [reflexivity|].
  simpl. inversion Hx as [|? ? Hxy _]; subst.
  now destruct (Z.leb_spec (cmp x y) 0); [|lia].
Qed.

Lemma sortTasks_notAfter tab (l : list Task) :
  StronglySorted (TaskListSummary.notAfter tab) (sortTasks tab l).
Proof.
  apply sort_sorted.
  - apply notAfter_trans.
  - auto.
  - apply notAfter_total.
Qed.

(** X17.  Sorting a group that is already in comparator order leaves it
    as it is; in particular sorting twice is sorting once, and the sorted
    group has the length of the group. *)
Theorem X17_sorting_again_changes_nothing (tab : TaskStatus) (g : list Task) :
  (StronglySorted (TaskListSummary.notAfter tab) g -> sortTasks tab g = g)
  /\ sortTasks tab (sortTasks tab g) = sortTasks tab g
  /\ length (sortTasks tab g) = length g.
Proof.
  split; [apply sort_fixed|].
  split; [apply sort_fixed, sortTasks_notAfter|].
  symmetry. apply Permutation_length, sort_perm.
Qed.

Lemma insert_stable {A} (cmp : A -> A -> Z) (same : A -> bool) (x : A)
    (l : list A) :
  (forall y, same x = true -> same y = true -> (cmp x y <= 0)%Z) ->
  filter same (JS.insert cmp x l) = filter same (x :: l).
Proof.
  intros Hsame. induction l as [|y l IH]; [reflexivity|].
  simpl. destruct (Z.leb_spec (cmp x y) 0) as [Hle|Hgt]; [reflexivity|].
  cbn [filter] in *. rewrite IH.
  destruct (same x) eqn:Ex, (same y) eqn:Ey; try reflexivity.
  specialize (Hsame y eq_refl Ey). lia.
Qed.

Lemma sort_stable {A} (cmp : A -> A -> Z) (same : A -> bool) (l : list A) :
  (forall x y, same x = true -> same y = true -> (cmp x y <= 0)%Z) ->
  filter same (JS.sort cmp l) = filter same l.
Proof.
  intros Hsame. induction l as [|x l IH]; [reflexivity|].
  cbn [JS.sort fold_right]. fold (JS.sort cmp l).
  rewrite insert_stable by (intros y; apply Hsame).
  cbn [filter]. now rewrite IH.
Qed.

(** X18.  The sort of a group is stable: the tasks the comparator does
    not tell apart from a given task (same due date, or no due date and
    the same creation time; same completion time in the completed tab)
    come out in the order they had in the group. *)
Theorem X18_sort_is_stable (tab : TaskStatus) (g : list Task) (t : Task) :
  filter (fun x => (compareTasks tab t x =? 0)%Z) (sortTasks tab g)
  = filter (fun x => (compareTasks tab t x =? 0)%Z) g.
Proof.
  apply sort_stable. intros x y Hx Hy.
  apply Z.eqb_eq in Hx, Hy. revert Hx Hy. unfold compareTasks.
  destruct tab; try lia;
    destruct (dueDate t), (dueDate x), (dueDate y); lia.
Qed.

(** *** Sections and the report they open *)

Section SectionFacts.
Variable dayOf : Z -> Z.
Variable now : Z.

Lemma dateGroups_concat_perm tab (l : list Task) :
  Permutation (concat (map snd (dateGroups dayOf tab l))) l.
Proof.
  unfold dateGroups. rewrite map_map. cbn [snd].
  rewrite <- flat_map_concat_map.
  erewrite flat_map_ext; [|intros k; apply groupedTasks_groupAt].
  apply filed_perm.
  - eapply Permutation_NoDup; [apply sort_perm|]. apply groupedTasks_NoDup.
  - intros t Ht. eapply Permutation_in; [apply sort_perm|].
    apply groupedTasks_keys. now exists t.
Qed.

Lemma concat_lengths_sorted tab (groups : list (DateKey * list Task)) :
  length (concat (map snd
                      (map (fun kg => (fst kg, sortTasks tab (snd kg)))
                           groups)))
  = length (concat (map snd groups)).
Proof.
  induction groups as [|[k g] groups IH]; [reflexivity|].
  cbn [map concat fst snd]. rewrite !length_app, IH. f_equal.
  symmetry. apply Permutation_length, sort_perm.
Qed.

(** X19.  The number a tab shows in its heading is the number of task
    cards the tab displays: the sections of the rendered list hold, all
    together, as many tasks as the tab counts, and the list has no section
    exactly when the tab has no task. *)
Theorem X19_count_is_number_of_cards (tab : TaskStatus) (tasks : list Task) :
  length (concat (map snd
                      (renderTaskList dayOf tab
                         (filteredTasks dayOf now tab tasks))))
  = getCount dayOf now tab tasks
  /\ (renderTaskList dayOf tab (filteredTasks dayOf now tab tasks) = []
      <-> getCount dayOf now tab tasks = 0).
Proof.
  assert (Hlen :
    length (concat (map snd
                        (renderTaskList dayOf tab
                           (filteredTasks dayOf now tab tasks))))
    = getCount dayOf now tab tasks).
  { unfold renderTaskList. rewrite concat_lengths_sorted.
    rewrite (Permutation_length (dateGroups_concat_perm tab _)).
    symmetry. apply getCount_inTab. }
  split; [exact Hlen|].
  split.
  - intros H. rewrite H in Hlen. simpl in Hlen. now symmetry.
  - intros H. rewrite getCount_inTab in H.
    apply length_zero_iff_nil in H. unfold filteredTasks. now rewrite H.
Qed.

Lemma filtered_completed_dated (tasks : list Task) (t : Task) :
  In t (filteredTasks dayOf now Completed tasks) ->
  status t = Completed
  /\ exists ts, completedAt t = Some ts /\ dayOf ts <> dayOf now.
Proof.
  unfold filteredTasks. rewrite filter_In, inTab_spec.
  intros [_ [Hs [ts [Hc Hd]]]]. split; [exact Hs|]. now exists ts.
Qed.

(** X20.  In the completed tab every section is the section of a calendar
    day other than the current one and holds completed tasks that were
    completed on that day; there is no 'No Date' section, so every section
    of the tab offers the report. *)
Theorem X20_completed_tab_sections (tasks : list Task) (k : DateKey)
    (g : list Task) :
  In (k, g) (dateGroups dayOf Completed
               (filteredTasks dayOf now Completed tasks)) ->
  TaskListSummary.summaryOffered k = true
  /\ exists d,
       k = Day d /\ d <> dayOf now
       /\ forall t, In t g ->
            status t = Completed
            /\ exists ts, completedAt t = Some ts /\ dayOf ts = d.
Proof.
  intros Hin. apply dateGroups_In in Hin.
  destruct Hin as [[t0 [Ht0 Hk0]] Hg].
  destruct (filtered_completed_dated tasks t0 Ht0) as [_ [ts0 [Hc0 Hd0]]].
  assert (Hk : k = Day (dayOf ts0)).
  { rewrite <- Hk0. unfold dateKeyOf, formatDay. now rewrite Hc0. }
  split; [now rewrite Hk|].
  exists (dayOf ts0). split; [exact Hk|]. split; [exact Hd0|].
  intros t Ht. rewrite Hg in Ht. apply filter_In in Ht.
  destruct Ht as [Ht Hkey].
  destruct (filtered_completed_dated tasks t Ht) as [Hs [ts [Hc _]]].
  split; [exact Hs|]. exists ts. split; [exact Hc|].
  unfold dateKeyOf, formatDay in Hkey. rewrite Hc, Hk in Hkey.
  simpl in Hkey. now apply Z.eqb_eq in Hkey.
Qed.

(** X21.  The report is opened on the array of a section after the list
    has sorted it in place: the group handed to the report belongs to a
    calendar day, is not empty, is in display order, and holds exactly the
    tasks of the tab that are filed under that day. *)
Theorem X21_report_group (tab : TaskStatus) (tasks : list Task) (k : DateKey)
    (g : list Task) :
  In (k, g) (TaskListSummary.summaryData dayOf tab
               (filteredTasks dayOf now tab tasks)) ->
  (exists d, k = Day d)
  /\ g <> []
  /\ StronglySorted (taskBefore tab) g
  /\ g = sortTasks tab
           (filter (fun t => DateKey_eqb (dateKeyOf dayOf tab t) k)
                   (filteredTasks dayOf now tab tasks))
  /\ (forall t,
        In t g
        <-> In t tasks /\ inTab dayOf now tab t = true
            /\ dateKeyOf dayOf tab t = k).
Proof.
  unfold TaskListSummary.summaryData, renderTaskList.
  rewrite filter_In, in_map_iff.
  intros [[[k0 g0] [[= <- <-] Hin]] Hoff]. cbn [fst snd] in *.
  pose proof (filtered_group_comparable dayOf now tab tasks k0 g0 Hin) as Hcmp.
  pose proof Hin as Hin'. apply dateGroups_In in Hin'.
  destruct Hin' as [[t0 [Ht0 Hk0]] Hg0].
  assert (Hmem : forall t,
            In t (sortTasks tab g0)
            <-> In t tasks /\ inTab dayOf now tab t = true
                /\ dateKeyOf dayOf tab t = k0).
  { intros t. split.
    - intros Ht. eapply Permutation_in in Ht; [|symmetry; apply sort_perm].
      rewrite Hg0 in Ht. apply filter_In in Ht. destruct Ht as [Ht Hk].
      unfold filteredTasks in Ht. apply filter_In in Ht.
      destruct Ht as [Ht Htab]. repeat split; auto.
      now destruct (DateKey_eqb_spec (dateKeyOf dayOf tab t) k0).
    - intros [Ht [Htab Hk]]. eapply Permutation_in; [apply sort_perm|].
      rewrite Hg0. apply filter_In. split.
      + unfold filteredTasks. now apply filter_In.
      + rewrite Hk. apply DateKey_eqb_refl. }
  split.
  { destruct k0 as [|d]; [discriminate|]. now exists d. }
  split.
  { intros Hnil. assert (Hin0 : In t0 (sortTasks tab g0)).
    { apply Hmem. unfold filteredTasks in Ht0. apply filter_In in Ht0.
      tauto. }
    now rewrite Hnil in Hin0. }
  split; [now apply sortTasks_sorted|].
  split; [now rewrite <- Hg0|exact Hmem].
Qed.
End SectionFacts.

(* ================================================================== *)
(** ** Further properties of the PDF export *)
(* ================================================================== *)

Lemma heightLeftAfter_succ (pageHeight heightLeft : Double.double) (k : nat) :
  PdfExport.heightLeftAfter pageHeight heightLeft (S k)
  = Double.sub (PdfExport.heightLeftAfter pageHeight heightLeft k) pageHeight.
Proof. reflexivity. Qed.

(** The loop, entered with the height left after [first] subtractions:
    it ends within the fuel exactly when the height left stops being
    positive after at most that many further subtractions, and it has then
    made the calls of the pages in between. *)
Lemma sliceLoop_trace (pdfHeight pageHeight : Double.double) (fuel : nat) :
  forall (first : nat) (calls : list PdfExport.PdfCall),
    PdfExport.sliceLoop fuel pdfHeight pageHeight
      (PdfExport.heightLeftAfter pageHeight pdfHeight first) = Some calls
    <-> exists n,
          n <= fuel
          /\ (forall k, first <= k < first + n ->
                Double.gtb (PdfExport.heightLeftAfter pageHeight pdfHeight k)
                           Double.zero = true)
          /\ Double.gtb
               (PdfExport.heightLeftAfter pageHeight pdfHeight (first + n))
               Double.zero = false
          /\ calls = PdfExport.laterPages pdfHeight pageHeight first n.
Proof.
  induction fuel as [|fuel IH]; intros first calls; cbn [PdfExport.sliceLoop].
  - destruct (Double.gtb (PdfExport.heightLeftAfter pageHeight pdfHeight first)
                         Double.zero) eqn:E.
    + split; [discriminate|].
      intros [n [Hn [_ [Hend _]]]].
      assert (n = 0) by lia. subst n.
      rewrite Nat.add_0_r in Hend. congruence.
    + split.
      * intros [= <-]. exists 0. rewrite Nat.add_0_r.
        split; [lia|]. split; [intros; lia|]. split; [exact E|reflexivity].
      * intros [n [Hn [_ [_ Hcalls]]]].
        assert (n = 0) by lia. subst n. now rewrite Hcalls.
  - destruct (Double.gtb (PdfExport.heightLeftAfter pageHeight pdfHeight first)
                         Double.zero) eqn:E.
    + rewrite <- heightLeftAfter_succ.
      destruct (PdfExport.sliceLoop fuel pdfHeight pageHeight
                  (PdfExport.heightLeftAfter pageHeight pdfHeight (S first)))
        as [rest|] eqn:Erest.
      * apply IH in Erest. destruct Erest as [n [Hn [Hpos [Hend Hrest]]]].
        split.
        -- intros [= <-]. exists (S n).
           split; [lia|]. split.
           { intros k Hk. destruct (Nat.eq_dec k first) as [->|Hne];
               [exact E|apply Hpos; lia]. }
           split; [now replace (first + S n) with (S first + n) by lia|].
           rewrite Hrest. reflexivity.
        -- intros [m [Hm [Hposm [Hendm Hcalls]]]].
           destruct m as [|m].
           { rewrite Nat.add_0_r in Hendm. congruence. }
           assert (Hsame : m = n).
           { destruct (Nat.lt_trichotomy m n) as [Hlt|[Heq|Hgt]];
               [|exact Heq|].
             - assert (Double.gtb
                         (PdfExport.heightLeftAfter pageHeight pdfHeight
                            (first + S m)) Double.zero = true)
                 by (apply Hpos; lia).
               congruence.
             - assert (Double.gtb
                         (PdfExport.heightLeftAfter pageHeight pdfHeight
                            (S first + n)) Double.zero = true)
                 by (apply Hposm; lia).
               congruence. }
           subst m. rewrite Hcalls, Hrest. reflexivity.
      * split; [discriminate|].
        intros [m [Hm [Hposm [Hendm Hcalls]]]].
        destruct m as [|m].
        { rewrite Nat.add_0_r in Hendm. congruence. }
        assert (Hsome : PdfExport.sliceLoop fuel pdfHeight pageHeight
                          (PdfExport.heightLeftAfter pageHeight pdfHeight
                             (S first))
                        = Some (PdfExport.laterPages pdfHeight pageHeight
                                  (S first) m)).
        { apply IH. exists m. split; [lia|]. split.
          - intros k Hk. apply Hposm. lia.
          - split; [|reflexivity].
            now replace (S first + m) with (first + S m) by lia. }
        congruence.
    + split.
      * intros [= <-]. exists 0. rewrite Nat.add_0_r.
        split; [lia|]. split; [intros; lia|]. split; [exact E|reflexivity].
      * intros [n [Hn [Hpos [_ Hcalls]]]].
        destruct n as [|n]; [now rewrite Hcalls|].
        assert (Double.gtb
                  (PdfExport.heightLeftAfter pageHeight pdfHeight first)
                  Double.zero = true) by (apply Hpos; lia).
        congruence.
Qed.

Lemma laterPages_counts (pdfHeight pageHeight : Double.double) (count : nat) :
  forall first,
    length (filter PdfExport.isAddPage
              (PdfExport.laterPages pdfHeight pageHeight first count)) = count
    /\ length (filter PdfExport.isAddImage
                 (PdfExport.laterPages pdfHeight pageHeight first count))
       = count.
Proof.
  unfold PdfExport.laterPages.
  induction count as [|count IH]; intros first; [split; reflexivity|].
  destruct (IH (S first)) as [Hp Hi].
  cbn [seq flat_map app filter PdfExport.isAddPage PdfExport.isAddImage length].
  now rewrite Hp, Hi.
Qed.

(** A height that the subtraction of the page height leaves unchanged
    stays positive for ever. *)
Lemma sliceLoop_absorbed (pdfHeight pageHeight heightLeft : Double.double) :
  Double.gtb heightLeft Double.zero = true ->
  Double.sub heightLeft pageHeight = heightLeft ->
  forall fuel,
    PdfExport.sliceLoop fuel pdfHeight pageHeight heightLeft = None.
Proof.
  intros Hpos Hsame fuel.
  induction fuel as [|fuel IH]; cbn [PdfExport.sliceLoop]; rewrite Hpos;
    [reflexivity|].
  now rewrite Hsame, IH.
Qed.

(** X22.  The PDF export places the image once on every page.  The height
    left starts at the height of the image and loses one page height per
    page, in double arithmetic; the export ends exactly when the height
    left stops being positive, after [n] further pages: it has then placed
    the image at position 0 and, for each further page [k] in order, after
    one [addPage], at the height left before that page less the height of
    the image.  So there is one image more than there are added pages; an
    image that leaves no positive height after the first page takes that
    page only; a run that ends gives the same calls however long it is let
    run; and when the page height is lost in the rounding of the
    subtraction from a positive height the export never ends. *)
Theorem X22_pdf_pages (pdfHeight pageHeight : Double.double) :
  (forall fuel calls,
     PdfExport.placeImage fuel pdfHeight pageHeight = Some calls
     <-> exists n,
           n <= fuel
           /\ (forall k, 1 <= k <= n ->
                 Double.gtb
                   (PdfExport.heightLeftAfter pageHeight pdfHeight k)
                   Double.zero = true)
           /\ Double.gtb
                (PdfExport.heightLeftAfter pageHeight pdfHeight (S n))
                Double.zero = false
           /\ calls
              = PdfExport.AddImage Double.zero
                :: PdfExport.laterPages pdfHeight pageHeight 1 n)
  /\ (forall fuel calls,
        PdfExport.placeImage fuel pdfHeight pageHeight = Some calls ->
        length (filter PdfExport.isAddImage calls)
        = S (length (filter PdfExport.isAddPage calls))
        /\ length (filter PdfExport.isAddPage calls) <= fuel)
  /\ (forall fuel fuel' calls,
        PdfExport.placeImage fuel pdfHeight pageHeight = Some calls ->
        fuel <= fuel' ->
        PdfExport.placeImage fuel' pdfHeight pageHeight = Some calls)
  /\ (Double.gtb (Double.sub pdfHeight pageHeight) Double.zero = false ->
      forall fuel,
        PdfExport.placeImage fuel pdfHeight pageHeight
        = Some [PdfExport.AddImage Double.zero])
  /\ (Double.gtb pdfHeight Double.zero = true ->
      Double.sub pdfHeight pageHeight = pdfHeight ->
      forall fuel, PdfExport.placeImage fuel pdfHeight pageHeight = None).
Proof.
  assert (Htrace :
    forall fuel calls,
      PdfExport.placeImage fuel pdfHeight pageHeight = Some calls
      <-> exists n,
            n <= fuel
            /\ (forall k, 1 <= k <= n ->
                  Double.gtb
                    (PdfExport.heightLeftAfter pageHeight pdfHeight k)
                    Double.zero = true)
            /\ Double.gtb
                 (PdfExport.heightLeftAfter pageHeight pdfHeight (S n))
                 Double.zero = false
            /\ calls
               = PdfExport.AddImage Double.zero
                 :: PdfExport.laterPages pdfHeight pageHeight 1 n).
  { intros fuel calls. unfold PdfExport.placeImage.
    change (Double.sub pdfHeight pageHeight)
      with (PdfExport.heightLeftAfter pageHeight pdfHeight 1).
    destruct (PdfExport.sliceLoop fuel pdfHeight pageHeight
                (PdfExport.heightLeftAfter pageHeight pdfHeight 1))
      as [rest|] eqn:Erest.
    - pose proof (proj1 (sliceLoop_trace pdfHeight pageHeight fuel 1 rest)
                    Erest) as [n [Hn [Hpos [Hend Hrest]]]].
      split.
      + intros [= <-]. exists n. split; [exact Hn|].
        split; [intros k Hk; apply Hpos; lia|].
        split; [exact Hend|now rewrite Hrest].
      + intros [m [Hm [Hposm [Hendm Hcalls]]]].
        assert (Hsome : PdfExport.sliceLoop fuel pdfHeight pageHeight
                          (PdfExport.heightLeftAfter pageHeight pdfHeight 1)
                        = Some (PdfExport.laterPages pdfHeight pageHeight 1 m)).
        { apply sliceLoop_trace. exists m. split; [exact Hm|].
          split; [intros k Hk; apply Hposm; lia|].
          split; [exact Hendm|reflexivity]. }
        rewrite Hcalls. congruence.
    - split; [discriminate|].
      intros [m [Hm [Hposm [Hendm _]]]].
      assert (Hsome : PdfExport.sliceLoop fuel pdfHeight pageHeight
                        (PdfExport.heightLeftAfter pageHeight pdfHeight 1)
                      = Some (PdfExport.laterPages pdfHeight pageHeight 1 m)).
      { apply sliceLoop_trace. exists m. split; [exact Hm|].
        split; [intros k Hk; apply Hposm; lia|].
        split; [exact Hendm|reflexivity]. }
      congruence. }
  split; [exact Htrace|].
  split.
  { intros fuel calls H. apply Htrace in H.
    destruct H as [n [Hn [_ [_ ->]]]].
    cbn [filter PdfExport.isAddImage PdfExport.isAddPage length].
    destruct (laterPages_counts pdfHeight pageHeight n 1) as [Hp Hi].
    rewrite Hp, Hi. split; [reflexivity|exact Hn]. }
  split.
  { intros fuel fuel' calls H Hle. apply Htrace in H. apply Htrace.
    destruct H as [n [Hn H]]. exists n. split; [lia|exact H]. }
  split.
  { intros Hend fuel. apply Htrace. exists 0.
    split; [lia|]. split; [intros; lia|]. split; [exact Hend|reflexivity]. }
  intros Hpos Hsame fuel. unfold PdfExport.placeImage.
  rewrite Hsame.
  now rewrite (sliceLoop_absorbed pdfHeight pageHeight pdfHeight Hpos Hsame).
Qed.

(* ================================================================== *)
(** ** Further worked examples *)
(* ================================================================== *)

(** A list in comparator order is its own sort. *)
Lemma X17_sorting_again_example :
  StronglySorted (TaskListSummary.notAfter Current)
    [Samples.doneToday; Samples.cur1; Samples.cur2]
  /\ sortTasks Current [Samples.doneToday; Samples.cur1; Samples.cur2]
     = [Samples.doneToday; Samples.cur1; Samples.cur2].
Proof.
  assert (H : StronglySorted (TaskListSummary.notAfter Current)
                [Samples.doneToday; Samples.cur1; Samples.cur2]).
  { repeat constructor; unfold TaskListSummary.notAfter; vm_compute;
      discriminate. }
  split; [exact H|].
  exact (proj1 (X17_sorting_again_changes_nothing Current _) H).
Defined.

(** The completed tab of the example collection has the one section of
    yesterday. *)
Lemma X20_completed_tab_sections_example :
  In (Day 19874, [Samples.doneYesterday])
     (dateGroups Samples.utcDay Completed
        (filteredTasks Samples.utcDay Samples.juneFirstMorning Completed
           Samples.fiveTasks))
  /\ TaskListSummary.summaryOffered (Day 19874) = true
  /\ exists d,
       Day 19874 = Day d /\ d <> Samples.utcDay Samples.juneFirstMorning
       /\ forall t, In t [Samples.doneYesterday] ->
            status t = Completed
            /\ exists ts, completedAt t = Some ts /\ Samples.utcDay ts = d.
Proof.
  assert (H : In (Day 19874, [Samples.doneYesterday])
                 (dateGroups Samples.utcDay Completed
                    (filteredTasks Samples.utcDay Samples.juneFirstMorning
                       Completed Samples.fiveTasks)))
    by (left; reflexivity).
  split; [exact H|].
  exact (X20_completed_tab_sections Samples.utcDay Samples.juneFirstMorning
           Samples.fiveTasks (Day 19874) [Samples.doneYesterday] H).
Defined.

(** The report of today's section of the current tab of the example
    collection. *)
Lemma X21_report_group_example :
  In (Day 19875, [Samples.doneToday])
     (TaskListSummary.summaryData Samples.utcDay Current
        (filteredTasks Samples.utcDay Samples.juneFirstMorning Current
           Samples.fiveTasks))
  /\ [Samples.doneToday] <> []
  /\ StronglySorted (taskBefore Current) [Samples.doneToday].
Proof.
  assert (H : In (Day 19875, [Samples.doneToday])
                 (TaskListSummary.summaryData Samples.utcDay Current
                    (filteredTasks Samples.utcDay Samples.juneFirstMorning
                       Current Samples.fiveTasks)))
    by (right; left; reflexivity).
  split; [exact H|].
  pose proof (X21_report_group Samples.utcDay Samples.juneFirstMorning
                Current Samples.fiveTasks (Day 19875) [Samples.doneToday] H)
    as [_ [Hne [Hsorted _]]].
  split; [exact Hne|exact Hsorted].
Defined.

(** An image 700 units high on pages 297 units high takes three pages,
    as does a canvas of 1000 by 4000 pixels on pages 210 wide (it is 840
    high), and an image 200 high takes one; an image 0.7 high on pages 0.1 high takes eight, the subtractions being
    rounded; an image 3 * 2^61 units high never gets to its end. *)
Lemma X22_pdf_pages_example :
  PdfExport.placeImage 5 (Double.ofZ 700) (Double.ofZ 297)
  = Some [PdfExport.AddImage Double.zero;
          PdfExport.AddPage; PdfExport.AddImage (Double.ofZ (-297));
          PdfExport.AddPage; PdfExport.AddImage (Double.ofZ (-594))]
  /\ PdfExport.placeImage 1000 (Double.ofZ 700) (Double.ofZ 297)
     = PdfExport.placeImage 5 (Double.ofZ 700) (Double.ofZ 297)
  /\ PdfExport.placeImage 0 (Double.ofZ 200) (Double.ofZ 297)
     = Some [PdfExport.AddImage Double.zero]
  /\ PdfExport.handleDownloadPdf 5 (Double.ofZ 1000) (Double.ofZ 4000)
       (Double.ofZ 210) (Double.ofZ 297)
     = Some [PdfExport.AddImage Double.zero;
             PdfExport.AddPage; PdfExport.AddImage (Double.ofZ (-297));
             PdfExport.AddPage; PdfExport.AddImage (Double.ofZ (-594))]
  /\ option_map (fun calls => length (filter PdfExport.isAddPage calls))
       (PdfExport.placeImage 10
          (Double.div (Double.ofZ 7) (Double.ofZ 10))
          (Double.div (Double.ofZ 1) (Double.ofZ 10)))
     = Some 7
  /\ Double.gtb (Double.ofZ (3 * 2 ^ 61)) Double.zero = true
  /\ Double.sub (Double.ofZ (3 * 2 ^ 61)) (Double.ofZ 297) = Double.ofZ (3 * 2 ^ 61)
  /\ forall fuel,
       PdfExport.placeImage fuel (Double.ofZ (3 * 2 ^ 61)) (Double.ofZ 297)
       = None.
Proof.
  assert (Hthree :
    PdfExport.placeImage 5 (Double.ofZ 700) (Double.ofZ 297)
    = Some [PdfExport.AddImage Double.zero;
            PdfExport.AddPage; PdfExport.AddImage (Double.ofZ (-297));
            PdfExport.AddPage; PdfExport.AddImage (Double.ofZ (-594))])
    by (vm_compute; reflexivity).
  assert (Hpos : Double.gtb (Double.ofZ (3 * 2 ^ 61)) Double.zero = true)
    by (vm_compute; reflexivity).
  assert (Hsame : Double.sub (Double.ofZ (3 * 2 ^ 61)) (Double.ofZ 297)
                  = Double.ofZ (3 * 2 ^ 61)) by (vm_compute; reflexivity).
  split; [exact Hthree|].
  split.
  { rewrite Hthree.
    apply (proj1 (proj2 (proj2
             (X22_pdf_pages (Double.ofZ 700) (Double.ofZ 297)))) 5 1000);
      [exact Hthree|lia]. }
  split.
  { apply (proj1 (proj2 (proj2 (proj2
             (X22_pdf_pages (Double.ofZ 200) (Double.ofZ 297)))))).
    vm_compute; reflexivity. }
  split; [vm_compute; reflexivity|].
  split; [vm_compute; reflexivity|].
  split; [exact Hpos|]. split; [exact Hsame|].
  exact (proj2 (proj2 (proj2 (proj2
           (X22_pdf_pages (Double.ofZ (3 * 2 ^ 61)) (Double.ofZ 297)))))
           Hpos Hsame).
Defined.

(** A group without an accomplished task is wholly outstanding. *)
Lemma X4_sections_and_notice_example :
  completedTasksList [Samples.taskB; Samples.taskC] = []
  /\ incompleteTasksList [Samples.taskB; Samples.taskC]
     = [Samples.taskB; Samples.taskC].
Proof.
  split; [reflexivity|].
  exact (proj1 (proj2 (X4_sections_and_notice [Samples.taskB; Samples.taskC]))
           eq_refl).
Defined.

(** A label without separators is used as it is. *)
Lemma X5_sanitised_label_example :
  Forall (fun c => isSeparator c = false) (js "Yesterday")
  /\ pdfFileName None (js "Yesterday") = js "KEPH-Report-Yesterday.pdf".
Proof.
  assert (H : Forall (fun c => isSeparator c = false) (js "Yesterday"))
    by (repeat constructor).
  split; [exact H|].
  exact (proj1 (proj2 (proj2 (X5_sanitised_label (js "Yesterday")))) H).
Defined.

(** Checking the open subtask of the example task records a completion
    time together with the completed status. *)
Lemma X7_completion_time_follows_status_example :
  nonEmpty (subtasks Samples.taskB) = true
  /\ TaskCard.datedIffCompleted
       (applyUpdates Samples.taskB
          (updates (handleSubtaskCheck 7000 Samples.taskB (js "b2") true))).
Proof.
  split; [reflexivity|].
  exact (proj1 (proj2 (proj2
           (X7_completion_time_follows_status 7000 Samples.taskB)))
           (js "b2") true eq_refl).
Defined.
